(** * BookServer routers: page/asset serving and event logging

    A shallow embedding of [bookserver/routers/books.py] and
    [bookserver/routers/rslogging.py].

    Python [str] values are modelled as [string]; dictionaries whose
    iteration order is never observed are [gmap string _]; the JSON cookie,
    whose serialisation depends on insertion order, is an ordered
    association list.  Handlers run in a small state-and-exception monad
    over the stores they write to. *)

From Stdlib Require Import ZArith Bool Ascii String List Lia.
From stdpp Require Import base option strings pretty gmap list.

Local Open Scope string_scope.
Local Open Scope list_scope.

(** ** Python string primitives *)

Module Str.

(** [s.startswith(p)] *)
Fixpoint startswith (s p : string) {struct p} : bool :=
  match p with
  | EmptyString => true
  | String c p' =>
      match s with
      | EmptyString => false
      | String d s' => Ascii.eqb d c && startswith s' p'
      end
  end.

(** [s.endswith(p)] *)
Definition endswith (s p : string) : bool :=
  let n := String.length s in
  let k := String.length p in
  (k <=? n)%nat && String.eqb (substring (n - k) k s) p.

(** [sub in s] *)
Fixpoint contains (sub s : string) : bool :=
  startswith s sub ||
  match s with
  | EmptyString => false
  | String _ s' => contains sub s'
  end.

(** [s.split(c)] for a one-character separator: never the empty list. *)
Fixpoint split (c : ascii) (s : string) : list string :=
  match s with
  | EmptyString => [EmptyString]
  | String a s' =>
      if Ascii.eqb a c then EmptyString :: split c s'
      else match split c s' with
           | h :: t => String a h :: t
           | [] => [String a EmptyString]
           end
  end.

(** [sep.join(l)] *)
Fixpoint join (sep : string) (l : list string) : string :=
  match l with
  | [] => EmptyString
  | [x] => x
  | x :: rest => x +:+ sep +:+ join sep rest
  end.

(** [s * n] *)
Fixpoint repeat (s : string) (n : nat) : string :=
  match n with
  | O => EmptyString
  | S n' => s +:+ repeat s n'
  end.

(** [s.rfind(c) + 1] for a one-character [c]: the length of the shortest
    prefix of [s] that contains every occurrence of [c] (0 when [c] does
    not occur). *)
Fixpoint rfind_succ (c : ascii) (s : string) : nat :=
  match s with
  | EmptyString => 0
  | String a s' =>
      match rfind_succ c s' with
      | O => if Ascii.eqb a c then 1 else 0
      | S k => S (S k)
      end
  end.

(** [s.rstrip(c)] for a one-character [c]. *)
Fixpoint rstrip (c : ascii) (s : string) : string :=
  match s with
  | EmptyString => EmptyString
  | String a s' =>
      match rstrip c s' with
      | EmptyString => if Ascii.eqb a c then EmptyString else String a EmptyString
      | r => String a r
      end
  end.

(** [s[:i]] and [s[i:]] *)
Definition take (i : nat) (s : string) : string := substring 0 i s.
Definition drop (i : nat) (s : string) : string := substring i (String.length s - i) s.

End Str.

(** ** [posixpath] and the platform's [os.path]

    [posixpath] is the standard library module the source imports; the
    definitions below follow its functions statement by statement. *)

Module posixpath.

Definition sep : string := "/".

(** [posixpath.isabs(s)]: [s.startswith('/')]. *)
Definition isabs (s : string) : bool := Str.startswith s sep.

(** The number [initial_slashes] computed by [normpath]: 0, 1 or 2
    (POSIX keeps exactly two leading slashes, collapses three or more). *)
Definition initial_slashes (path : string) : nat :=
  if Str.startswith path sep then
    if Str.startswith path (Str.repeat sep 2)
       && negb (Str.startswith path (Str.repeat sep 3))
    then 2 else 1
  else 0.

Definition is_nil {A} (l : list A) : bool :=
  match l with [] => true | _ => false end.

(** One iteration of the loop [for comp in comps] of [normpath];
    [new_comps] grows and shrinks at its end. *)
Definition normpath_step (slashes : nat) (new_comps : list string) (comp : string)
  : list string :=
  if String.eqb comp "" || String.eqb comp "." then new_comps
  else if negb (String.eqb comp "..")
          || (Nat.eqb slashes 0 && is_nil new_comps)
          || (negb (is_nil new_comps) && String.eqb (List.last new_comps "") "..")
       then new_comps ++ [comp]
       else if negb (is_nil new_comps) then removelast new_comps
            else new_comps.

(** [posixpath.normpath(path)] *)
Definition normpath (path : string) : string :=
  if String.eqb path "" then "."
  else
    let slashes := initial_slashes path in
    let comps := Str.split "/" path in
    let new_comps := fold_left (normpath_step slashes) comps [] in
    let path := Str.join sep new_comps in
    let path := if Nat.eqb slashes 0 then path else Str.repeat sep slashes +:+ path in
    if String.eqb path "" then "." else path.

(** One iteration of the loop [for b in p] of [posixpath.join]. *)
Definition join_step (path b : string) : string :=
  if Str.startswith b sep then b
  else if String.eqb path "" || Str.endswith path sep then path +:+ b
  else path +:+ sep +:+ b.

(** [posixpath.join(a, *p)] *)
Definition join (a : string) (p : list string) : string :=
  fold_left join_step p a.

(** [posixpath.split(p)]: (head, tail) around the last slash. *)
Definition split (p : string) : string * string :=
  let i := Str.rfind_succ "/" p in
  let head := Str.take i p in
  let tail := Str.drop i p in
  let head :=
    if negb (String.eqb head "")
       && negb (String.eqb head (Str.repeat sep (String.length head)))
    then Str.rstrip "/" head else head in
  (head, tail).

(** [posixpath.basename(p)] *)
Definition basename (p : string) : string :=
  Str.drop (Str.rfind_succ "/" p) p.

(** The [while] loop of [genericpath._splitext]: is there a character other
    than the dot in [p[filenameIndex:dotIndex]]? *)
Fixpoint has_non_dot (s : string) : bool :=
  match s with
  | EmptyString => false
  | String a s' => negb (Ascii.eqb a ".") || has_non_dot s'
  end.

(** [posixpath.splitext(p)] *)
Definition splitext (p : string) : string * string :=
  let sep_succ := Str.rfind_succ "/" p in
  let dot_succ := Str.rfind_succ "." p in
  if (sep_succ <? dot_succ)%nat
     && has_non_dot (substring sep_succ (dot_succ - 1 - sep_succ) p)
  then (Str.take (dot_succ - 1) p, Str.drop (dot_succ - 1) p)
  else (p, "").

End posixpath.

(** What [os.path] provides on the running platform. *)
Record OsPath := {
  os_sep : string;
  os_altsep : option string;
  os_isabs : string -> bool;
}.

(** On POSIX hosts [os.path] is [posixpath]: separator [/], no alternate. *)
Definition posix : OsPath :=
  {| os_sep := posixpath.sep; os_altsep := None; os_isabs := posixpath.isabs |}.

(** ** [safe_join] (books.py) *)

Section SafeJoin.

Variable os : OsPath.

(** [_os_alt_seps]: the separators in [os.path.sep; os.path.altsep] that
    are neither [None] nor [/]. *)
Definition _os_alt_seps : list string :=
  List.filter (fun s => negb (String.eqb s "/"))
    (os_sep os :: match os_altsep os with Some a => [a] | None => [] end).

(** The segment after the statement
    [if filename != "": filename = posixpath.normpath(filename)]. *)
Definition normalized (filename : string) : string :=
  if negb (String.eqb filename "") then posixpath.normpath filename else filename.

(** The two rejection tests of the loop body, on the normalised segment. *)
Definition rejected (filename : string) : bool :=
  existsb (fun sep => Str.contains sep filename) _os_alt_seps
  || (os_isabs os filename
      || String.eqb filename ".."
      || Str.startswith filename "../").

(** The loop [for filename in pathnames]; [None] is the early [return None]. *)
Fixpoint safe_join_loop (parts pathnames : list string) : option (list string) :=
  match pathnames with
  | [] => Some parts
  | filename :: rest =>
      let filename := normalized filename in
      if existsb (fun sep => Str.contains sep filename) _os_alt_seps then None
      else if os_isabs os filename
              || String.eqb filename ".."
              || Str.startswith filename "../"
      then None
      else safe_join_loop (parts ++ [filename]) rest
  end.

(** [posixpath.join( *parts)]; [parts] always begins with the directory. *)
Definition join_parts (parts : list string) : string :=
  match parts with
  | a :: p => posixpath.join a p
  | [] => ""
  end.

Definition safe_join (directory : string) (pathnames : list string) : option string :=
  match safe_join_loop [directory] pathnames with
  | Some parts => Some (join_parts parts)
  | None => None
  end.

End SafeJoin.

(** ** Data model *)

(** [settings] (config, imported): only the two values the routers read. *)
Record Settings := {
  book_path : string;
  login_url : string;
}.

(** A row of the course store, as [fetch_course] returns it. *)
Record CourseRow := {
  id : Z;
  course_name : string;
  base_course : string;
  login_required : bool;
  downloads_enabled : bool;
  allow_pairs : bool;
}.

(** [request.state.user] when a session is authenticated. *)
Record RequestUser := {
  username : string;
  email : string;
  user_course_name : string;
}.

(** The parts of the framework's [Request] the handlers read:
    [request.state.user] and [request.scope.get("root_path")]. *)
Record Request := {
  state_user : option RequestUser;
  root_path : option string;
}.

(** JSON documents, as [json.loads] builds them; objects keep the order
    of their keys, as Python dictionaries do. *)
#[local] Unset Elimination Schemes.
Inductive JSON :=
  | JNull
  | JBool (b : bool)
  | JInt (z : Z)
  | JFloat (repr : string)
  | JStr (s : string)
  | JArr (items : list JSON)
  | JObj (members : list (string * JSON)).
#[local] Set Elimination Schemes.

(** Python values stored in dictionaries handed to the validators and to
    the template renderer. *)
Inductive PyVal :=
  | VNone
  | VBool (b : bool)
  | VInt (z : Z)
  | VStr (s : string)
  | VDatetime (t : Z)
  | VList (l : list string)
  | VRequest (r : Request)
  | VSettings (s : Settings).

(** The canonical event record ([UseinfoValidation], models). *)
Record Useinfo := {
  ui_timestamp : Z;
  ui_sid : string;
  ui_event : string;
  ui_act : string;
  ui_div_id : string;
  ui_course_id : string;
}.

(** The incoming event payload ([LogItemIncoming], schemas); [li_extra]
    holds the kind-specific fields. *)
Record LogItemIncoming := {
  li_event : string;
  li_act : string;
  li_div_id : string;
  li_course_name : string;
  li_sid : option string;
  li_timestamp : option Z;
  li_extra : gmap string PyVal;
}.

(** A validated kind-specific answer record. *)
Record AnswerRecord := { ar_fields : gmap string PyVal }.

(** The Jinja2 environment behind a [Jinja2Templates] object. *)
Record Templates := {
  directory : string;
  variable_start_string : string;
  variable_end_string : string;
  comment_start_string : string;
  comment_end_string : string;
  globals : list string;
}.

(** What a handler returns. *)
Inductive Response :=
  | FileResponse (path : string)
  | RedirectResponse (url : string)
  | TemplateResponse (env : Templates) (name : string) (context : gmap string PyVal).

(** What [log_book_event] returns: [{"status": "OK", "idx": idx}] or
    [{"status": "FAIL"}]. *)
Inductive LogStatus :=
  | StatusOK (idx : Z)
  | StatusFAIL.

(** The exceptions that can leave a handler.  [HTTPException] holds the
    arguments of the constructor call as the source writes it: the status
    code and the [detail] argument, [None] when the call gives none. *)
Inductive Exn :=
  | HTTPException (status_code : Z) (detail : option string)
  | TemplateNotFound
  | ValidationError
  | AttributeError
  | TypeError
  | KeyError
  | JSONDecodeError.

Inductive Result (A : Type) :=
  | Ok (a : A)
  | Raise (e : Exn).
Arguments Ok {A} a.
Arguments Raise {A} e.

(** ** The stores the handlers write to *)

(** [clock] is what [datetime.utcnow()] reads; [useinfo] and [answers] are
    the event table and the answer tables (a row names its event kind);
    [rendered] logs the template renders performed. *)
Record World := {
  clock : Z;
  useinfo : list Useinfo;
  answers : list (string * AnswerRecord);
  rendered : list (Templates * string * gmap string PyVal);
}.

(** Handlers: state passing over [World], with exceptions. *)
Definition M (A : Type) : Type := World -> Result A * World.

Definition ret {A} (a : A) : M A := fun w => (Ok a, w).

Definition raise {A} (e : Exn) : M A := fun w => (Raise e, w).

Definition bind {A B} (m : M A) (k : A -> M B) : M B :=
  fun w =>
    match m w with
    | (Ok a, w') => k a w'
    | (Raise e, w') => (Raise e, w')
    end.

(** [try m except e: h] *)
Definition try_except {A} (m : M A) (e : Exn -> bool) (h : M A) : M A :=
  fun w =>
    match m w with
    | (Raise x, w') => if e x then h w' else (Raise x, w')
    | r => r
    end.

Notation "x <- m ;; k" := (bind m (fun x => k))
  (at level 100, m at next level, k at level 200, right associativity).

(** The status line the framework sends for a handler's outcome: an
    [HTTPException] carries its own status; the routers install no handler
    for any other exception, so it leaves the handler uncaught and is
    reported as 500. *)
Definition status_of {A} (r : Result A) (ok : A -> Z) : Z :=
  match r with
  | Ok a => ok a
  | Raise (HTTPException c _) => c
  | Raise _ => 500
  end.

(** The [status_code] a response object is constructed with, by the
    defaults of its class.  Whether a [FileResponse] can be streamed is
    decided later, when the framework opens the file. *)
Definition response_status (resp : Response) : Z :=
  match resp with
  | FileResponse _ => 200
  | RedirectResponse _ => 307
  | TemplateResponse _ _ _ => 200
  end.

(** ** External collaborators

    The course store, the activity and attribute lookups, the session
    helper, the file system, the template loader, the schema checks and the
    identifier generation of the event store are not part of the routers;
    the handlers are parameterised by them. *)
Record Services := {
  settings : Settings;
  fetch_course : string -> option CourseRow;
  fetch_page_activity_counts : string -> string -> string -> string -> string -> JSON;
  fetch_all_course_attributes : Z -> gmap string string;
  is_instructor : Request -> bool;
  path_exists : string -> bool;
  template_exists : string -> string -> bool;
  useinfo_schema_ok : Useinfo -> bool;
  useinfo_idx : list Useinfo -> Useinfo -> option Z;
  EVENT2TABLE : gmap string string;
  validation_tables : gmap string (LogItemIncoming -> option AnswerRecord);
  json_dumps : JSON -> string;
  json_loads : string -> option JSON;
}.

(** Python truthiness of the values the handlers test. *)
Definition truthy_str (s : option string) : bool :=
  match s with
  | Some s => negb (String.eqb s "")
  | None => false
  end.

Definition truthy_idx (idx : option Z) : bool :=
  match idx with
  | Some z => negb (Z.eqb z 0)
  | None => false
  end.

(** [dict(k1=v1, ..., **unpacked)]: a call with keyword arguments; a key of
    [unpacked] that repeats an explicit keyword makes the call raise
    [TypeError] ("got multiple values for keyword argument"). *)
Definition py_dict (keywords : list (string * PyVal)) (unpacked : gmap string PyVal)
  : Result (gmap string PyVal) :=
  if existsb (fun kv => bool_decide (is_Some (unpacked !! kv.1))) keywords
  then Raise TypeError
  else Ok (list_to_map keywords ∪ unpacked).

(** [d[k] = v] on an insertion-ordered dictionary: an existing key keeps
    its position, a new key goes last. *)
Fixpoint dict_set (d : list (string * JSON)) (k : string) (v : JSON)
  : list (string * JSON) :=
  match d with
  | [] => [(k, v)]
  | (k', v') :: d' =>
      if String.eqb k' k then (k', v) :: d' else (k', v') :: dict_set d' k v
  end.

(** [d.get(k)] *)
Fixpoint dict_get (d : list (string * JSON)) (k : string) : option JSON :=
  match d with
  | [] => None
  | (k', v') :: d' => if String.eqb k' k then Some v' else dict_get d' k
  end.

(** [values[k] = v] on a decoded JSON document: only objects support item
    assignment with a string key. *)
Definition json_setitem (values : JSON) (k : string) (v : JSON) : Result JSON :=
  match values with
  | JObj d => Ok (JObj (dict_set d k v))
  | _ => Raise TypeError
  end.

Definition set_sid (entry : LogItemIncoming) (sid : string) : LogItemIncoming :=
  {| li_event := li_event entry; li_act := li_act entry;
     li_div_id := li_div_id entry; li_course_name := li_course_name entry;
     li_sid := Some sid; li_timestamp := li_timestamp entry;
     li_extra := li_extra entry |}.

Definition set_timestamp (entry : LogItemIncoming) (t : Z) : LogItemIncoming :=
  {| li_event := li_event entry; li_act := li_act entry;
     li_div_id := li_div_id entry; li_course_name := li_course_name entry;
     li_sid := li_sid entry; li_timestamp := Some t;
     li_extra := li_extra entry |}.

Definition opt_val {A} (f : A -> PyVal) (o : option A) : PyVal :=
  match o with
  | Some a => f a
  | None => VNone
  end.

(** [entry.dict()] *)
Definition entry_dict (entry : LogItemIncoming) : gmap string PyVal :=
  <["event" := VStr (li_event entry)]>
  (<["act" := VStr (li_act entry)]>
  (<["div_id" := VStr (li_div_id entry)]>
  (<["course_name" := VStr (li_course_name entry)]>
  (<["sid" := opt_val VStr (li_sid entry)]>
  (<["timestamp" := opt_val VDatetime (li_timestamp entry)]>
  (li_extra entry)))))).

(** The default environment [Jinja2Templates] builds for a directory;
    [globals] lists the names the server adds to Jinja2's own. *)
Definition default_templates (dir : string) : Templates :=
  {| directory := dir;
     variable_start_string := "{{"; variable_end_string := "}}";
     comment_start_string := "{#"; comment_end_string := "#}";
     globals := ["url_for"] |}.

(** The reconfiguration for PreTeXt books. *)
Definition pretext_templates (t : Templates) : Templates :=
  {| directory := directory t;
     variable_start_string := "~._"; variable_end_string := "_.~";
     comment_start_string := "@@#"; comment_end_string := "#@@";
     globals := globals t ++ ["URL"] |}.

Definition log_useinfo (w : World) (e : Useinfo) : World :=
  {| clock := clock w; useinfo := useinfo w ++ [e];
     answers := answers w; rendered := rendered w |}.

Definition log_answer (w : World) (event : string) (a : AnswerRecord) : World :=
  {| clock := clock w; useinfo := useinfo w;
     answers := answers w ++ [(event, a)]; rendered := rendered w |}.

Definition log_render (w : World) (t : Templates) (name : string)
  (context : gmap string PyVal) : World :=
  {| clock := clock w; useinfo := useinfo w;
     answers := answers w; rendered := rendered w ++ [(t, name, context)] |}.

Section Handlers.

Variable env : Services.

(** [datetime.utcnow()] *)
Definition utcnow : M Z := fun w => (Ok (clock w), w).

(** Modelled from the spec: [UseinfoValidation] (models, not under src/),
    the canonical event schema: the record is built from the keyword
    arguments [event], [act], [div_id], [course_id], [sid], [timestamp],
    other keys are ignored, and a payload that does not fit the schema is
    refused with a validation error. *)
Definition UseinfoValidation (kwargs : gmap string PyVal) : M Useinfo :=
  match kwargs !! "event", kwargs !! "act", kwargs !! "div_id",
        kwargs !! "course_id", kwargs !! "sid", kwargs !! "timestamp" with
  | Some (VStr e), Some (VStr a), Some (VStr d),
    Some (VStr c), Some (VStr s), Some (VDatetime t) =>
      let u := {| ui_timestamp := t; ui_sid := s; ui_event := e;
                  ui_act := a; ui_div_id := d; ui_course_id := c |} in
      if useinfo_schema_ok env u then ret u else raise ValidationError
  | _, _, _, _, _, _ => raise ValidationError
  end.

(** Modelled from the spec: [create_useinfo_entry] (crud, not under src/),
    the user-event insert: it appends the event to the event store and
    yields the identifier the store generated, if any. *)
Definition create_useinfo_entry (e : Useinfo) : M (option Z) :=
  fun w => (Ok (useinfo_idx env (useinfo w) e), log_useinfo w e).

(** Modelled from the spec: [create_answer_table_entry] (crud, not under
    src/), the kind-specific answer insert: it appends the answer record
    to the answer table of the event kind. *)
Definition create_answer_table_entry (a : AnswerRecord) (event : string) : M unit :=
  fun w => (Ok tt, log_answer w event a).

(** [Jinja2Templates(directory=d)]: the loader converts its search path
    with [os.fspath], which raises [TypeError] for [None]. *)
Definition Jinja2Templates (d : option string) : M Templates :=
  match d with
  | Some dir => ret (default_templates dir)
  | None => raise TypeError
  end.

(** [templates.TemplateResponse(name, context)]: the template is looked up
    at once, raising [TemplateNotFound] when the loader has no such file,
    and rendered with the context. *)
Definition render_template (t : Templates) (name : string)
  (context : gmap string PyVal) : M Response :=
  fun w =>
    if template_exists env (directory t) name
    then (Ok (TemplateResponse t name context), log_render w t name context)
    else (Raise TemplateNotFound, w).

(** [os.path.exists(path)]: [os.stat] raises [TypeError] for [None], which
    [exists] does not catch. *)
Definition os_path_exists (path : option string) : M bool :=
  match path with
  | Some p => ret (path_exists env p)
  | None => raise TypeError
  end.

(** *** books.py *)

Definition return_static_asset (course kind filepath : string) : M Response :=
  let course_row := fetch_course env course in
  match course_row with
  | None => raise AttributeError
  | Some course_row =>
      let filepath :=
        safe_join posix (book_path (settings env))
          [base_course course_row; "build"; base_course course_row; kind; filepath] in
      found <- os_path_exists filepath ;;
      if found
      then match filepath with
           | Some p => ret (FileResponse p)
           | None => raise TypeError
           end
      else raise (HTTPException 404 None)
  end.

Definition get_image (course filepath : string) : M Response :=
  return_static_asset course "_images" filepath.

Definition get_static (course filepath : string) : M Response :=
  return_static_asset course "_static" filepath.

Definition js_bool (b : bool) : string := if b then "true" else "false".

(** The keyword arguments written out in the [dict(...)] call of
    [serve_page], in source order. *)
Definition context_keywords (request : Request) (course_name : string)
  (course_row : CourseRow) (activity_info : JSON) (user_is_instructor : bool)
  : list (string * PyVal) :=
  let user := state_user request in
  [ ("request", VRequest request);
    ("course_name", VStr course_name);
    ("base_course", VStr (base_course course_row));
    ("user_id", VStr (match user with Some u => username u | None => "" end));
    ("new_server_prefix", opt_val VStr (root_path request));
    ("user_email", VStr (match user with Some u => email u | None => "" end));
    ("downloads_enabled", VStr (js_bool (downloads_enabled course_row)));
    ("allow_pairs", VStr (js_bool (allow_pairs course_row)));
    ("activity_info", VStr (json_dumps env activity_info));
    ("settings", VSettings (settings env));
    ("is_logged_in", VStr (js_bool (bool_decide (is_Some user))));
    ("serve_ad", VBool (negb (bool_decide (is_Some user))));
    ("is_instructor", VStr (js_bool user_is_instructor));
    ("readings", VList []) ].

(** [course_attrs] after the default for the compare feature is filled in. *)
Definition with_compare_default (course_attrs : gmap string string)
  : gmap string string :=
  match course_attrs !! "enable_compare_me" with
  | None => <["enable_compare_me" := "true"]> course_attrs
  | Some _ => course_attrs
  end.

(** [context = dict(request=request, ..., readings=[], **course_attrs)] *)
Definition page_context (request : Request) (course_name : string)
  (course_row : CourseRow) (activity_info : JSON) (user_is_instructor : bool)
  (course_attrs : gmap string string) : Result (gmap string PyVal) :=
  py_dict
    (context_keywords request course_name course_row activity_info user_is_instructor)
    (VStr <$> course_attrs).

Definition lift {A} (r : Result A) : M A := fun w => (r, w).

Definition is_template_not_found (e : Exn) : bool :=
  match e with TemplateNotFound => true | _ => false end.

Definition serve_page (request : Request) (course_name pagepath : string)
  : M Response :=
  let user := state_user request in
  let user_is_instructor :=
    match user with Some _ => is_instructor env request | None => false end in
  match fetch_course env course_name with
  | None =>
      raise (HTTPException 404 (Some ("Course " +:+ course_name +:+ " not found")))
  | Some course_row =>
      if login_required course_row && negb (bool_decide (is_Some user))
      then ret (RedirectResponse (login_url (settings env)))
      else if match user with
              | Some u => negb (String.eqb (user_course_name u) course_name)
              | None => false
              end
      then ret (RedirectResponse "/runestone/default/courses")
      else
        let chapter := snd (posixpath.split (fst (posixpath.split pagepath))) in
        let subchapter := posixpath.basename (fst (posixpath.splitext pagepath)) in
        let activity_info :=
          match user with
          | Some u =>
              fetch_page_activity_counts env chapter subchapter
                (base_course course_row) (username u) course_name
          | None => JObj []
          end in
        templates <- Jinja2Templates
                       (safe_join posix (book_path (settings env))
                          [base_course course_row; "published"; base_course course_row]) ;;
        let course_attrs := fetch_all_course_attributes env (id course_row) in
        let templates :=
          if String.eqb (default "RST" (course_attrs !! "markup_system")) "PreTeXt"
          then pretext_templates templates else templates in
        let course_attrs := with_compare_default course_attrs in
        now <- utcnow ;;
        entry <- UseinfoValidation
                   (list_to_map
                      [ ("event", VStr "page"); ("act", VStr "view");
                        ("div_id", VStr pagepath); ("course_id", VStr course_name);
                        ("sid", VStr (match user with
                                      | Some u => username u
                                      | None => "Anonymous"
                                      end));
                        ("timestamp", VDatetime now) ]) ;;
        _ <- create_useinfo_entry entry ;;
        context <- lift (page_context request course_name course_row activity_info
                           user_is_instructor course_attrs) ;;
        try_except (render_template templates pagepath context)
          is_template_not_found
          (raise (HTTPException 404
                    (Some ("Page " +:+ pagepath +:+ " not found in base course "
                           +:+ base_course course_row +:+ "."))))
  end.

(** *** rslogging.py *)

Definition log_book_event (entry : LogItemIncoming) (request : Request)
  : M LogStatus :=
  let entry :=
    match state_user request with
    | Some u => set_sid entry (username u)
    | None => set_sid entry "Anonymous"
    end in
  now <- utcnow ;;
  let entry := set_timestamp entry now in
  let useinfo_dict := entry_dict entry in
  useinfo_dict <-
    match useinfo_dict !! "course_name" with
    | Some v => ret (<["course_id" := v]> (delete "course_name" useinfo_dict))
    | None => raise KeyError
    end ;;
  useinfo_entry <- UseinfoValidation useinfo_dict ;;
  idx <- create_useinfo_entry useinfo_entry ;;
  _ <- match EVENT2TABLE env !! li_event entry with
       | Some table_name =>
           match validation_tables env !! table_name with
           | None => raise KeyError
           | Some from_orm =>
               match from_orm entry with
               | None => raise ValidationError
               | Some valid_table =>
                   create_answer_table_entry valid_table (li_event entry)
               end
           end
       | None => ret tt
       end ;;
  match idx with
  | Some i => if truthy_idx idx then ret (StatusOK i) else ret StatusFAIL
  | None => ret StatusFAIL
  end.

(** [set_tz_offset]: [response] is the list of cookies set on the reply;
    the handler returns its acknowledgement and the updated reply. *)
Definition set_tz_offset (response : list (string * string)) (timezoneoffset : Z)
  (RS_info : option string) : Result (string * list (string * string)) :=
  let values :=
    match RS_info with
    | Some s =>
        if truthy_str RS_info
        then match json_loads env s with
             | Some v => Ok v
             | None => Raise JSONDecodeError
             end
        else Ok (JObj [])
    | None => Ok (JObj [])
    end in
  match values with
  | Raise e => Raise e
  | Ok values =>
      match json_setitem values "tz_offset" (JInt timezoneoffset) with
      | Raise e => Raise e
      | Ok values =>
          Ok ("done", response ++ [("RS_info", json_dumps env values)])
      end
  end.

End Handlers.

(** ** A sample deployment

    Concrete collaborators on which the handlers can be evaluated: three
    courses, one image, one template, one answer-bearing event kind. *)

Module Demo.

Definition demo_settings : Settings :=
  {| book_path := "/srv/books"; login_url := "/runestone/default/user/login" |}.

Definition overview : CourseRow :=
  {| id := 1; course_name := "overview"; base_course := "overview";
     login_required := false; downloads_enabled := true; allow_pairs := false |}.

Definition cs101 : CourseRow :=
  {| id := 2; course_name := "cs101"; base_course := "thinkcspy";
     login_required := true; downloads_enabled := false; allow_pairs := true |}.

(** A course one of whose attributes is named like a fixed context key. *)
Definition shadow : CourseRow :=
  {| id := 3; course_name := "shadow"; base_course := "overview";
     login_required := false; downloads_enabled := false; allow_pairs := false |}.

Definition courses (name : string) : option CourseRow :=
  if String.eqb name "overview" then Some overview
  else if String.eqb name "cs101" then Some cs101
  else if String.eqb name "shadow" then Some shadow
  else None.

Definition attributes (course : Z) : gmap string string :=
  if Z.eqb course 3 then {[ "user_id" := "mallory" ]}
  else if Z.eqb course 2 then {[ "markup_system" := "PreTeXt" ]}
  else ∅.

Definition files (p : string) : bool :=
  String.eqb p "/srv/books/overview/build/overview/_images/logo.png".

Definition templates_on_disk (dir name : string) : bool :=
  String.eqb dir "/srv/books/overview/published/overview"
  && String.eqb name "index.html".

Definition fits (s : string) : bool := (String.length s <=? 512)%nat.

Definition schema_ok (u : Useinfo) : bool :=
  fits (ui_sid u) && fits (ui_event u) && fits (ui_act u)
  && fits (ui_div_id u) && fits (ui_course_id u).

Definition next_idx (table : list Useinfo) (_ : Useinfo) : option Z :=
  Some (Z.of_nat (List.length table) + 1)%Z.

Definition event2table : gmap string string :=
  {[ "mChoice" := "mchoice_answers" ]}.

Definition mchoice_from_orm (entry : LogItemIncoming) : option AnswerRecord :=
  match li_extra entry !! "answer", li_extra entry !! "correct" with
  | Some a, Some c =>
      Some {| ar_fields :=
                <["sid" := opt_val VStr (li_sid entry)]>
                (<["div_id" := VStr (li_div_id entry)]>
                (<["answer" := a]> {[ "correct" := c ]})) |}
  | _, _ => None
  end.

Definition tables : gmap string (LogItemIncoming -> option AnswerRecord) :=
  {[ "mchoice_answers" := mchoice_from_orm ]}.

Definition dq : string := String (Ascii.ascii_of_nat 34) "".

(** The text of a preference cookie: an object with the one key [theme]. *)
Definition prefs_text : string :=
  "{" +:+ dq +:+ "theme" +:+ dq +:+ ": " +:+ dq +:+ "dark" +:+ dq +:+ "}".

Definition prefs : list (string * JSON) := [("theme", JStr "dark")].

Definition loads (s : string) : option JSON :=
  if String.eqb s prefs_text then Some (JObj prefs) else None.

(** A printer for documents whose strings need no escaping. *)
Fixpoint dumps (j : JSON) : string :=
  match j with
  | JNull => "null"
  | JBool b => if b then "true" else "false"
  | JInt z => pretty z
  | JFloat r => r
  | JStr s => dq +:+ s +:+ dq
  | JArr items => "[" +:+ Str.join ", " (List.map dumps items) +:+ "]"
  | JObj members =>
      "{" +:+ Str.join ", "
                (List.map (fun kv => match kv with
                                     | (k, v) => dq +:+ k +:+ dq +:+ ": " +:+ dumps v
                                     end) members)
      +:+ "}"
  end.

Definition env : Services :=
  {| settings := demo_settings;
     fetch_course := courses;
     fetch_page_activity_counts := fun _ _ _ _ _ => JObj [];
     fetch_all_course_attributes := attributes;
     is_instructor := fun _ => false;
     path_exists := files;
     template_exists := templates_on_disk;
     useinfo_schema_ok := schema_ok;
     useinfo_idx := next_idx;
     EVENT2TABLE := event2table;
     validation_tables := tables;
     json_dumps := dumps;
     json_loads := loads |}.

Definition anonymous : Request := {| state_user := None; root_path := Some "/ns" |}.

Definition alice : RequestUser :=
  {| username := "alice"; email := "alice@example.org"; user_course_name := "overview" |}.

Definition as_alice : Request := {| state_user := Some alice; root_path := Some "/ns" |}.

Definition w0 : World :=
  {| clock := 1636000000%Z; useinfo := []; answers := []; rendered := [] |}.

(** A multiple-choice answer as the client posts it, with a forged subject
    and a stale timestamp. *)
Definition mchoice_entry : LogItemIncoming :=
  {| li_event := "mChoice"; li_act := "answer:1:correct"; li_div_id := "q1";
     li_course_name := "overview"; li_sid := Some "root"; li_timestamp := Some 0%Z;
     li_extra := <["answer" := VStr "1"]> {[ "correct" := VBool true ]} |}.

Definition click_entry : LogItemIncoming :=
  {| li_event := "page"; li_act := "click"; li_div_id := "toc";
     li_course_name := "overview"; li_sid := None; li_timestamp := None;
     li_extra := ∅ |}.

End Demo.

(** ** Vocabulary of the statements *)

(** The subject a request is logged under: the session's user name, or
    the literal [Anonymous]. *)
Definition caller_sid (request : Request) : string :=
  match state_user request with
  | Some u => username u
  | None => "Anonymous"
  end.

(** The page-view event [serve_page] records at time [now]. *)
Definition view_event (request : Request) (course_name pagepath : string) (now : Z)
  : Useinfo :=
  {| ui_timestamp := now; ui_sid := caller_sid request;
     ui_event := "page"; ui_act := "view";
     ui_div_id := pagepath; ui_course_id := course_name |}.

(** The event [log_book_event] records for a payload at time [now]. *)
Definition logged_event (entry : LogItemIncoming) (request : Request) (now : Z)
  : Useinfo :=
  {| ui_timestamp := now; ui_sid := caller_sid request;
     ui_event := li_event entry; ui_act := li_act entry;
     ui_div_id := li_div_id entry; ui_course_id := li_course_name entry |}.

(** The payload as the handler passes it on: subject and timestamp
    overwritten. *)
Definition stamped (entry : LogItemIncoming) (request : Request) (now : Z)
  : LogItemIncoming :=
  set_timestamp (set_sid entry (caller_sid request)) now.

(** The payload with other client-supplied subject and timestamp. *)
Definition with_client_fields (entry : LogItemIncoming) (sid : option string)
  (timestamp : option Z) : LogItemIncoming :=
  {| li_event := li_event entry; li_act := li_act entry;
     li_div_id := li_div_id entry; li_course_name := li_course_name entry;
     li_sid := sid; li_timestamp := timestamp;
     li_extra := li_extra entry |}.

(** The keys written out in the [dict(...)] call of [serve_page]. *)
Definition context_keys : list string :=
  [ "request"; "course_name"; "base_course"; "user_id"; "new_server_prefix";
    "user_email"; "downloads_enabled"; "allow_pairs"; "activity_info";
    "settings"; "is_logged_in"; "serve_ad"; "is_instructor"; "readings" ].

(** Neither of the two redirects of [serve_page] applies. *)
Definition access_granted (request : Request) (course_name : string)
  (row : CourseRow) : bool :=
  negb (login_required row && negb (bool_decide (is_Some (state_user request))))
  && match state_user request with
     | Some u => String.eqb (user_course_name u) course_name
     | None => true
     end.

(** The outcome of validating a record whose six fields are present. *)
Definition validated (env : Services) (u : Useinfo) : M Useinfo :=
  if useinfo_schema_ok env u then ret u else raise ValidationError.

(** [entry.dict()] with [course_name] renamed to [course_id]. *)
Definition renamed (entry : LogItemIncoming) : gmap string PyVal :=
  <["course_id" := VStr (li_course_name entry)]>
    (delete "course_name" (entry_dict entry)).

(** The reply of [log_book_event] for the identifier the store yielded. *)
Definition log_status (idx : option Z) : LogStatus :=
  match idx with
  | Some i => if truthy_idx idx then StatusOK i else StatusFAIL
  | None => StatusFAIL
  end.

(** The activity counts and the instructor flag [serve_page] works with. *)
Definition page_activity_info (env : Services) (request : Request)
  (course_name pagepath : string) (row : CourseRow) : JSON :=
  match state_user request with
  | Some u =>
      fetch_page_activity_counts env
        (snd (posixpath.split (fst (posixpath.split pagepath))))
        (posixpath.basename (fst (posixpath.splitext pagepath)))
        (base_course row) (username u) course_name
  | None => JObj []
  end.

Definition page_is_instructor (env : Services) (request : Request) : bool :=
  match state_user request with
  | Some _ => is_instructor env request
  | None => false
  end.

(** The environment a page of the course is rendered in. *)
Definition page_templates (env : Services) (row : CourseRow) (dir : string)
  : Templates :=
  if String.eqb
       (default "RST" (fetch_all_course_attributes env (id row) !! "markup_system"))
       "PreTeXt"
  then pretext_templates (default_templates dir) else default_templates dir.

(** The reply of [serve_page] for a page that has no template. *)
Definition page_not_found (pagepath : string) (row : CourseRow) : Exn :=
  HTTPException 404
    (Some ("Page " +:+ pagepath +:+ " not found in base course "
           +:+ base_course row +:+ ".")).

(** ** [URL] and [XML] (books.py) *)

(** [URL( *argv)]: ["/".join(argv)] *)
Definition URL (argv : list string) : string := Str.join "/" argv.

(** [XML(arg)] *)
Definition XML {A : Type} (arg : A) : A := arg.

(** ** More vocabulary *)

(** A path component that names an entry: not empty, not [.], not [..],
    and free of slashes. *)
Definition plain_comp (c : string) : bool :=
  negb (String.eqb c "") && negb (String.eqb c ".") && negb (String.eqb c "..")
  && negb (Str.contains "/" c).

(** The components [normpath] keeps for a path. *)
Definition normpath_comps (path : string) : list string :=
  fold_left (posixpath.normpath_step (posixpath.initial_slashes path))
    (Str.split "/" path) [].

(** A second deployment, whose codec also reads back the cookie that the
    first call of [set_tz_offset] writes for the sample preferences. *)
Module Demo2.

Definition first_offset : Z := 5.

Definition prefs1 : list (string * JSON) :=
  dict_set Demo.prefs "tz_offset" (JInt first_offset).

Definition loads (s : string) : option JSON :=
  if String.eqb s Demo.prefs_text then Some (JObj Demo.prefs)
  else if String.eqb s (Demo.dumps (JObj prefs1)) then Some (JObj prefs1)
  else None.

(** The templates of the first deployment, and the front page of the
    PreTeXt book. *)
Definition templates_on_disk (dir name : string) : bool :=
  Demo.templates_on_disk dir name
  || (String.eqb dir "/srv/books/thinkcspy/published/thinkcspy"
      && String.eqb name "index.html").

Definition env : Services :=
  {| settings := Demo.demo_settings;
     fetch_course := Demo.courses;
     fetch_page_activity_counts := fun _ _ _ _ _ => JObj [];
     fetch_all_course_attributes := Demo.attributes;
     is_instructor := fun _ => true;
     path_exists := Demo.files;
     template_exists := templates_on_disk;
     useinfo_schema_ok := Demo.schema_ok;
     useinfo_idx := fun _ _ => Some 0%Z;
     EVENT2TABLE := Demo.event2table;
     validation_tables := Demo.tables;
     json_dumps := Demo.dumps;
     json_loads := loads |}.

(** A user whose current course is [cs101]. *)
Definition bob : RequestUser :=
  {| username := "bob"; email := "bob@example.org"; user_course_name := "cs101" |}.

Definition as_bob : Request := {| state_user := Some bob; root_path := None |}.

(** A multiple-choice event that lacks the fields of its answer table. *)
Definition bare_mchoice : LogItemIncoming :=
  {| li_event := "mChoice"; li_act := "answer:1:correct"; li_div_id := "q1";
     li_course_name := "overview"; li_sid := None; li_timestamp := None;
     li_extra := ∅ |}.

(** An event whose target id is longer than the schema allows. *)
Definition long_entry : LogItemIncoming :=
  {| li_event := "page"; li_act := "click";
     li_div_id := Str.repeat "x" 513;
     li_course_name := "overview"; li_sid := None; li_timestamp := None;
     li_extra := ∅ |}.

End Demo2.

(** The chapter and the subchapter [serve_page] derives from the page
    path: the name of the parent directory and the file name without its
    extension. *)
Definition chapter_of (pagepath : string) : string :=
  snd (posixpath.split (fst (posixpath.split pagepath))).

Definition subchapter_of (pagepath : string) : string :=
  posixpath.basename (fst (posixpath.splitext pagepath)).

(** ** Lexical containment *)

(** The text after [base] in a path begins at a component border: there is
    none, or [base] is empty and the text is relative, or a slash stands
    between the two. *)
Definition at_border (base rest : string) : bool :=
  String.eqb rest ""
  || (if String.eqb base "" then negb (Str.startswith rest "/")
      else Str.endswith base "/" || Str.startswith rest "/").

(** [p] lies lexically inside [base]: it is [base] followed, from a
    component border on, by components none of which is [..]. *)
Definition stays_below (base p : string) : bool :=
  let rest := Str.drop (String.length base) p in
  Str.startswith p base
  && at_border base rest
  && forallb (fun c => negb (String.eqb c "..")) (Str.split "/" rest).

(** The same, with the text after [base] named. *)
Definition below (base p : string) : Prop :=
  exists rest, p = base +:+ rest
               /\ at_border base rest = true
               /\ Forall (fun c => c <> "..") (Str.split "/" rest).

(** A segment that is relative and has no [..] among its components. *)
Definition tame (b : string) : Prop :=
  posixpath.isabs b = false
  /\ Forall (fun c => c <> "..") (Str.split "/" b).

(** The members of an object under the keys other than [k], in order. *)
Definition other_members (k : string) (d : list (string * JSON)) : list (string * JSON) :=
  List.filter (fun kv => negb (String.eqb kv.1 k)) d.

(** * Properties *)

(** ** Strings *)

Lemma startswith_app (a b : string) : Str.startswith (a +:+ b) a = true.
Proof.
  induction a as [|c a IH]; simpl; [reflexivity|].
  now rewrite Ascii.eqb_refl, IH.
Qed.

Lemma startswith_app_l (p d r : string) :
  Str.startswith p d = true -> Str.startswith (p +:+ r) d = true.
Proof.
  revert p; induction d as [|c d IH]; intros p H; simpl in *; [reflexivity|].
  destruct p as [|e p]; simpl in *; [discriminate|].
  apply andb_true_iff in H as [H1 H2].
  now rewrite H1, (IH _ H2).
Qed.

Lemma startswith_refl (s : string) : Str.startswith s s = true.
Proof.
  induction s as [|c s IH]; simpl; [reflexivity|].
  now rewrite Ascii.eqb_refl, IH.
Qed.

Lemma startswith_nonempty (s p : string) :
  Str.startswith s p = true -> p <> "" -> s <> "".
Proof. destruct p, s; simpl; congruence. Qed.

(** ** [posixpath.join] never leaves its first argument unless a later
    argument is absolute *)

Lemma join_step_prefix (path b d : string) :
  posixpath.isabs b = false ->
  Str.startswith path d = true ->
  Str.startswith (posixpath.join_step path b) d = true.
Proof.
  intros Hb Hd. unfold posixpath.join_step.
  unfold posixpath.isabs in Hb. rewrite Hb.
  destruct (String.eqb path "" || Str.endswith path posixpath.sep);
    now apply startswith_app_l.
Qed.

Lemma join_prefix (p : list string) (a d : string) :
  Forall (fun b => posixpath.isabs b = false) p ->
  Str.startswith a d = true ->
  Str.startswith (posixpath.join a p) d = true.
Proof.
  unfold posixpath.join.
  revert a; induction p as [|b p IH]; intros a Hp Ha; simpl; [exact Ha|].
  inversion Hp as [|? ? Hb Hp']; subst.
  apply IH; [exact Hp'|]. now apply join_step_prefix.
Qed.

(** ** The loop of [safe_join] *)

Section SafeJoinFacts.

Variable os : OsPath.

Lemma rejected_split (f : string) :
  rejected os f =
  existsb (fun sep => Str.contains sep f) (_os_alt_seps os)
  || (os_isabs os f || String.eqb f ".." || Str.startswith f "../").
Proof. reflexivity. Qed.

Lemma safe_join_loop_step (parts : list string) (filename : string) (rest : list string) :
  safe_join_loop os parts (filename :: rest) =
  if rejected os (normalized filename) then None
  else safe_join_loop os (parts ++ [normalized filename]) rest.
Proof.
  simpl. unfold rejected.
  destruct (existsb _ _); [reflexivity|]. simpl.
  now destruct (os_isabs os (normalized filename) || _ || _).
Qed.

(** An accepted sequence appends exactly the normalised segments, none of
    which the platform regards as absolute. *)
Lemma safe_join_loop_accepts (pathnames parts parts' : list string) :
  safe_join_loop os parts pathnames = Some parts' ->
  parts' = parts ++ List.map normalized pathnames /\
  Forall (fun f => rejected os (normalized f) = false) pathnames.
Proof.
  revert parts; induction pathnames as [|f rest IH]; intros parts H.
  - simpl in H. injection H as <-. now rewrite app_nil_r.
  - rewrite safe_join_loop_step in H.
    destruct (rejected os (normalized f)) eqn:Hr; [discriminate|].
    apply IH in H as [-> Hall]. split.
    + now rewrite <- app_assoc.
    + now constructor.
Qed.

Lemma safe_join_loop_rejects (pathnames parts : list string) (f : string) :
  In f pathnames ->
  rejected os (normalized f) = true ->
  safe_join_loop os parts pathnames = None.
Proof.
  revert parts; induction pathnames as [|g rest IH]; intros parts Hin Hr.
  - destruct Hin.
  - rewrite safe_join_loop_step.
    destruct (rejected os (normalized g)) eqn:Hg; [reflexivity|].
    destruct Hin as [->|Hin]; [congruence|]. now apply IH.
Qed.

Lemma safe_join_loop_total (pathnames parts : list string) :
  Forall (fun f => rejected os (normalized f) = false) pathnames ->
  safe_join_loop os parts pathnames = Some (parts ++ List.map normalized pathnames).
Proof.
  revert parts; induction pathnames as [|f rest IH]; intros parts H.
  - simpl. now rewrite app_nil_r.
  - inversion H as [|? ? Hf Hrest]; subst.
    rewrite safe_join_loop_step, Hf, (IH _ Hrest).
    now rewrite <- app_assoc.
Qed.

End SafeJoinFacts.

Lemma rejected_false_not_abs (os : OsPath) (f : string) :
  rejected os f = false -> os_isabs os f = false.
Proof.
  unfold rejected. intros H.
  apply orb_false_iff in H as [_ H].
  apply orb_false_iff in H as [H _].
  now apply orb_false_iff in H as [H _].
Qed.

(** ** [posixpath.normpath] on segments that are absolute or climb *)

Lemma initial_slashes_abs (p : string) :
  posixpath.isabs p = true ->
  posixpath.initial_slashes p = 1 \/ posixpath.initial_slashes p = 2.
Proof.
  unfold posixpath.isabs, posixpath.initial_slashes. intros ->.
  destruct (_ && _); auto.
Qed.

Lemma initial_slashes_rel (p : string) :
  posixpath.isabs p = false -> posixpath.initial_slashes p = 0.
Proof. unfold posixpath.isabs, posixpath.initial_slashes. now intros ->. Qed.

(** An absolute segment is still absolute after normalisation. *)
Lemma normalized_keeps_root (f : string) :
  posixpath.isabs f = true -> posixpath.isabs (normalized f) = true.
Proof.
  intros Habs.
  assert (Hne : String.eqb f "" = false) by (destruct f; [discriminate|reflexivity]).
  unfold normalized, posixpath.normpath. rewrite Hne. cbv beta iota zeta. simpl negb.
  cbv iota.
  generalize (Str.join posixpath.sep
                (fold_left (posixpath.normpath_step (posixpath.initial_slashes f))
                   (Str.split "/" f) [])).
  intros j.
  destruct (initial_slashes_abs f Habs) as [-> | ->]; reflexivity.
Qed.

(** Once [new_comps] begins with [..] in a relative path, it keeps doing so. *)
Lemma normpath_step_keeps_dotdot (tl : list string) (comp : string) :
  exists tl', posixpath.normpath_step 0 (".." :: tl) comp = ".." :: tl'.
Proof.
  unfold posixpath.normpath_step.
  destruct (String.eqb comp "" || String.eqb comp "."); [now exists tl|].
  destruct (String.eqb comp "..") eqn:Hc; simpl negb; simpl orb.
  - destruct tl as [|t tl].
    + exists [comp]. reflexivity.
    + cbn [posixpath.is_nil negb andb].
      destruct (String.eqb (List.last _ _) "..").
      * exists ((t :: tl) ++ [comp]). reflexivity.
      * exists (removelast (t :: tl)). reflexivity.
  - exists (tl ++ [comp]). reflexivity.
Qed.

Lemma normpath_fold_keeps_dotdot (comps tl : list string) :
  exists tl', fold_left (posixpath.normpath_step 0) comps (".." :: tl) = ".." :: tl'.
Proof.
  revert tl; induction comps as [|c comps IH]; intros tl; simpl.
  - now exists tl.
  - destruct (normpath_step_keeps_dotdot tl c) as [tl' ->]. apply IH.
Qed.

Lemma join_dotdot (tl : list string) :
  Str.join posixpath.sep (".." :: tl) = ".."
  \/ Str.startswith (Str.join posixpath.sep (".." :: tl)) "../" = true.
Proof. destruct tl; [left|right]; reflexivity. Qed.

Lemma split_dotdot_slash (rest : string) :
  Str.split "/" (String "." (String "." (String "/" rest)))
  = ".." :: Str.split "/" rest.
Proof. reflexivity. Qed.

(** A segment that begins with [../] normalises to [..] or to a path that
    still begins with [../]. *)
Lemma normalized_keeps_climb (f : string) :
  Str.startswith f "../" = true ->
  normalized f = ".." \/ Str.startswith (normalized f) "../" = true.
Proof.
  intros H.
  destruct f as [|a [|b [|c rest]]]; simpl in H;
    rewrite ?andb_false_r in H; try discriminate.
  rewrite !andb_true_iff in H. destruct H as (Ha & Hb & Hc & _).
  apply Ascii.eqb_eq in Ha, Hb, Hc. subst a b c.
  unfold normalized, posixpath.normpath.
  change (String.eqb (String "." (String "." (String "/" rest))) "") with false.
  cbv beta iota zeta. simpl negb. cbv iota.
  change (posixpath.initial_slashes (String "." (String "." (String "/" rest)))) with 0.
  rewrite split_dotdot_slash. simpl fold_left.
  change (posixpath.normpath_step 0 [] "..") with [".."].
  destruct (normpath_fold_keeps_dotdot (Str.split "/" rest) []) as [tl ->].
  simpl Nat.eqb. cbv iota.
  destruct (join_dotdot tl) as [Hj | Hj].
  - rewrite Hj. now left.
  - right.
    assert (Hne : String.eqb (Str.join posixpath.sep (".." :: tl)) "" = false).
    { destruct (Str.join posixpath.sep (".." :: tl)); [discriminate|reflexivity]. }
    now rewrite Hne.
Qed.

(** C2, as the code has it: a segment that is absolute, or that after
    normalisation is [..], begins with [../], is absolute or contains an
    alternate separator of the platform, makes [safe_join] return [None];
    so does, on POSIX, any segment that is absolute, is [..] or begins with
    [../] as given. *)
Theorem safe_join_rejects_escapes :
  (forall (os : OsPath) (directory : string) (pathnames : list string) (f : string),
      In f pathnames ->
      (exists sep, In sep (_os_alt_seps os) /\ Str.contains sep (normalized f) = true)
      \/ os_isabs os (normalized f) = true
      \/ normalized f = ".."
      \/ Str.startswith (normalized f) "../" = true ->
      safe_join os directory pathnames = None)
  /\
  (forall (directory : string) (pathnames : list string) (f : string),
      In f pathnames ->
      posixpath.isabs f = true \/ f = ".." \/ Str.startswith f "../" = true ->
      safe_join posix directory pathnames = None).
Proof.
  assert (Hgen : forall os directory pathnames f,
             In f pathnames -> rejected os (normalized f) = true ->
             safe_join os directory pathnames = None).
  { intros os directory pathnames f Hin Hr. unfold safe_join.
    now rewrite (safe_join_loop_rejects os pathnames [directory] f Hin Hr). }
  split.
  - intros os directory pathnames f Hin Hcase.
    apply (Hgen os directory pathnames f Hin).
    unfold rejected.
    destruct Hcase as [[sep [Hsep Hc]] | [Habs | [Heq | Hpre]]].
    + apply orb_true_iff. left. apply List.existsb_exists. now exists sep.
    + rewrite Habs. apply orb_true_r.
    + rewrite Heq. cbn [String.eqb Ascii.eqb Bool.eqb andb orb].
      now rewrite !orb_true_r.
    + rewrite Hpre. now rewrite !orb_true_r.
  - intros directory pathnames f Hin Hcase.
    apply (Hgen posix directory pathnames f Hin).
    unfold rejected.
    destruct Hcase as [Habs | [-> | Hpre]].
    + simpl os_isabs. rewrite (normalized_keeps_root f Habs). reflexivity.
    + reflexivity.
    + destruct (normalized_keeps_climb f Hpre) as [-> | Hc].
      * reflexivity.
      * rewrite Hc. now rewrite !orb_true_r.
Qed.

Lemma safe_join_rejects_escapes_witness :
  safe_join posix "/srv/books" ["overview"; "build"; "overview"; "_static"; "x/../../../secret"]
    = None
  /\ safe_join posix "/srv/books" ["overview"; "_images"; "../../etc/passwd"] = None.
Proof.
  split.
  - apply (proj1 safe_join_rejects_escapes posix "/srv/books"
             ["overview"; "build"; "overview"; "_static"; "x/../../../secret"]
             "x/../../../secret").
    + simpl. tauto.
    + right. right. right. reflexivity.
  - apply (proj2 safe_join_rejects_escapes "/srv/books"
             ["overview"; "_images"; "../../etc/passwd"] "../../etc/passwd").
    + simpl. tauto.
    + right. right. reflexivity.
Defined.

(** C2 as stated fails: a segment that contains [..] is normalised first,
    and is accepted when the normal form does not climb out. *)
Lemma safe_join_accepts_inner_dotdot :
  Str.contains ".." "a/../b" = true
  /\ safe_join posix "/srv/books" ["a/../b"] = Some "/srv/books/b".
Proof. split; reflexivity. Qed.

(** ** Static assets: [return_static_asset] *)

Section StaticAssetFacts.

Variable env : Services.

(** A course that is in the store, a path [safe_join] accepts: a
    [FileResponse] for it is returned if [os.path.exists] holds, otherwise
    [HTTPException(404)] is raised. *)
Lemma return_static_asset_resolved (course kind filepath p : string)
  (row : CourseRow) (w : World) :
  fetch_course env course = Some row ->
  safe_join posix (book_path (settings env))
    [base_course row; "build"; base_course row; kind; filepath] = Some p ->
  return_static_asset env course kind filepath w =
  (if path_exists env p then Ok (FileResponse p) else Raise (HTTPException 404 None), w).
Proof.
  intros Hc Hj. unfold return_static_asset. rewrite Hc, Hj.
  unfold bind, os_path_exists, ret, raise.
  now destruct (path_exists env p).
Qed.

(** A path [safe_join] rejects reaches [os.path.exists] as [None]: the
    handler ends in an uncaught [TypeError], never in a file response. *)
Lemma return_static_asset_rejected (course kind filepath : string)
  (row : CourseRow) (w : World) :
  fetch_course env course = Some row ->
  safe_join posix (book_path (settings env))
    [base_course row; "build"; base_course row; kind; filepath] = None ->
  return_static_asset env course kind filepath w = (Raise TypeError, w).
Proof.
  intros Hc Hj. unfold return_static_asset. now rewrite Hc, Hj.
Qed.

(** A course that is not in the store: the attribute access on [None]
    raises before any path is built. *)
Lemma return_static_asset_no_course (course kind filepath : string) (w : World) :
  fetch_course env course = None ->
  return_static_asset env course kind filepath w = (Raise AttributeError, w).
Proof. intros Hc. unfold return_static_asset. now rewrite Hc. Qed.

End StaticAssetFacts.

(** C3 at the request of the specification's example: the traversal is
    rejected by [safe_join], no file is returned, but the reply is the 500
    of an uncaught [TypeError], while a file that is merely missing gets
    404. *)
Theorem static_traversal_is_server_error :
  let traversal := get_static Demo.env "overview" "../../etc/passwd" Demo.w0 in
  let missing := get_static Demo.env "overview" "nothing.css" Demo.w0 in
  safe_join posix "/srv/books"
    ["overview"; "build"; "overview"; "_static"; "../../etc/passwd"] = None
  /\ traversal = (Raise TypeError, Demo.w0)
  /\ status_of traversal.1 response_status = 500%Z
  /\ missing = (Raise (HTTPException 404 None), Demo.w0)
  /\ status_of missing.1 response_status = 404%Z.
Proof. repeat split; vm_compute; reflexivity. Qed.

(** ** Pages: [serve_page] *)

Section ServePageFacts.

Variable env : Services.

(** A course that is not in the store: 404, nothing written. *)
Lemma serve_page_no_course (request : Request) (course_name pagepath : string)
  (w : World) :
  fetch_course env course_name = None ->
  serve_page env request course_name pagepath w =
  (Raise (HTTPException 404 (Some ("Course " +:+ course_name +:+ " not found"))), w).
Proof. intros Hc. unfold serve_page. now rewrite Hc. Qed.

End ServePageFacts.

(** C4 at a course that is not in the store: the page route answers 404,
    the static routes end in an uncaught [AttributeError] (500). *)
Theorem missing_course_static_is_server_error :
  let page := serve_page Demo.env Demo.anonymous "nosuch" "index.html" Demo.w0 in
  let image := get_image Demo.env "nosuch" "logo.png" Demo.w0 in
  let static := get_static Demo.env "nosuch" "site.css" Demo.w0 in
  fetch_course Demo.env "nosuch" = None
  /\ status_of page.1 response_status = 404%Z
  /\ image = (Raise AttributeError, Demo.w0)
  /\ status_of image.1 response_status = 500%Z
  /\ static = (Raise AttributeError, Demo.w0)
  /\ status_of static.1 response_status = 500%Z.
Proof. repeat split; vm_compute; reflexivity. Qed.

(** C7: an anonymous request to a course that requires login is answered
    with a redirect to the login location, and the stores are left as they
    were: no event row, no render. *)
Theorem serve_page_login_redirect (env : Services) (request : Request)
  (course_name pagepath : string) (row : CourseRow) (w : World) :
  state_user request = None ->
  fetch_course env course_name = Some row ->
  login_required row = true ->
  serve_page env request course_name pagepath w =
  (Ok (RedirectResponse (login_url (settings env))), w).
Proof.
  intros Hu Hc Hl. unfold serve_page. now rewrite Hc, Hl, Hu.
Qed.

Lemma serve_page_login_redirect_witness :
  serve_page Demo.env Demo.anonymous "cs101" "index.html" Demo.w0 =
  (Ok (RedirectResponse "/runestone/default/user/login"), Demo.w0).
Proof.
  apply (serve_page_login_redirect Demo.env Demo.anonymous "cs101" "index.html"
           Demo.cs101 Demo.w0); reflexivity.
Defined.

(** ** Context assembly *)

Lemma context_keywords_keys (env : Services) (request : Request)
  (course_name : string) (row : CourseRow) (activity_info : JSON) (instr : bool) :
  List.map fst (context_keywords env request course_name row activity_info instr)
  = context_keys.
Proof. reflexivity. Qed.

Lemma context_keys_NoDup : NoDup context_keys.
Proof. apply (bool_decide_unpack _). vm_compute. exact I. Qed.

Lemma compare_key_not_fixed : ~ In "enable_compare_me" context_keys.
Proof. simpl. intros H. repeat (destruct H as [H|H]; [discriminate H|]). exact H. Qed.

Lemma with_compare_default_lookup (attrs : gmap string string) (k : string) :
  k <> "enable_compare_me" -> with_compare_default attrs !! k = attrs !! k.
Proof.
  intros Hk. unfold with_compare_default.
  destruct (attrs !! "enable_compare_me"); [reflexivity|].
  now rewrite lookup_insert_ne.
Qed.

Lemma with_compare_default_keeps (attrs : gmap string string) (k v : string) :
  attrs !! k = Some v -> with_compare_default attrs !! k = Some v.
Proof.
  intros H. unfold with_compare_default.
  destruct (attrs !! "enable_compare_me") eqn:He; [exact H|].
  rewrite lookup_insert_ne; [exact H|]. intros <-. congruence.
Qed.

Lemma with_compare_default_sets (attrs : gmap string string) :
  attrs !! "enable_compare_me" = None ->
  with_compare_default attrs !! "enable_compare_me" = Some "true".
Proof.
  intros H. unfold with_compare_default. rewrite H. apply lookup_insert_eq.
Qed.

(** The keyword call raises exactly when an unpacked key repeats a keyword. *)
Lemma py_dict_collision (keywords : list (string * PyVal))
  (unpacked : gmap string PyVal) (k : string) :
  In k (List.map fst keywords) -> is_Some (unpacked !! k) ->
  py_dict keywords unpacked = Raise TypeError.
Proof.
  intros Hin Hsome. unfold py_dict.
  replace (existsb _ keywords) with true; [reflexivity|].
  symmetry. apply List.existsb_exists.
  apply List.in_map_iff in Hin as [[k' v] [Hk Hin]]. simpl in Hk. subst k'.
  exists (k, v). split; [exact Hin|]. now apply bool_decide_eq_true_2.
Qed.

Lemma py_dict_disjoint (keywords : list (string * PyVal))
  (unpacked : gmap string PyVal) :
  (forall k, In k (List.map fst keywords) -> unpacked !! k = None) ->
  py_dict keywords unpacked = Ok (list_to_map keywords ∪ unpacked).
Proof.
  intros Hdis. unfold py_dict.
  replace (existsb _ keywords) with false; [reflexivity|].
  symmetry. apply not_true_is_false. intros Hex.
  apply List.existsb_exists in Hex as [[k v] [Hin Hb]].
  apply bool_decide_eq_true_1 in Hb. simpl in Hb.
  rewrite (Hdis k) in Hb; [now destruct Hb|].
  apply List.in_map_iff. now exists (k, v).
Qed.

Section ContextFacts.

Variable env : Services.
Variables (request : Request) (course_name : string) (row : CourseRow).
Variables (activity_info : JSON) (instr : bool).

Let keywords := context_keywords env request course_name row activity_info instr.

Lemma page_context_collision (attrs : gmap string string) (k : string) :
  In k context_keys -> is_Some (attrs !! k) ->
  page_context env request course_name row activity_info instr
    (with_compare_default attrs) = Raise TypeError.
Proof.
  intros Hk [v Hv]. unfold page_context.
  apply (py_dict_collision _ _ k); [exact Hk|].
  rewrite lookup_fmap, (with_compare_default_keeps attrs k v Hv). now eexists.
Qed.

Lemma page_context_disjoint (attrs : gmap string string) :
  (forall k, In k context_keys -> attrs !! k = None) ->
  page_context env request course_name row activity_info instr
    (with_compare_default attrs)
  = Ok (list_to_map keywords ∪ (VStr <$> with_compare_default attrs)).
Proof.
  intros Hdis. unfold page_context. apply py_dict_disjoint.
  intros k Hk. change (In k context_keys) in Hk.
  rewrite lookup_fmap, with_compare_default_lookup, (Hdis k Hk); [reflexivity|].
  intros ->. now apply compare_key_not_fixed.
Qed.

Lemma keywords_lookup (k : string) (v : PyVal) :
  In (k, v) keywords -> (list_to_map keywords : gmap string PyVal) !! k = Some v.
Proof.
  intros Hin. apply elem_of_list_to_map_1.
  - change (NoDup (List.map fst keywords)). apply context_keys_NoDup.
  - now apply list_elem_of_In.
Qed.

Lemma keywords_lookup_None (k : string) :
  ~ In k context_keys -> (list_to_map keywords : gmap string PyVal) !! k = None.
Proof.
  intros Hk. apply not_elem_of_list_to_map_1.
  intros Hin. apply Hk. now apply list_elem_of_In.
Qed.

End ContextFacts.

(** C8, as the code has it: a course attribute named like a fixed context
    key never replaces the fixed value, the keyword call refuses the
    repeated key with [TypeError] and no context is built; when no attribute
    is named like a fixed key, the context holds every fixed key with its
    fixed value, every course attribute with its value, and the default of
    the compare feature when the attributes omit it. *)
Theorem page_context_merge (env : Services) (request : Request)
  (course_name : string) (row : CourseRow) (activity_info : JSON) (instr : bool)
  (attrs : gmap string string) :
  let build :=
    page_context env request course_name row activity_info instr
      (with_compare_default attrs) in
  (forall k, In k context_keys -> is_Some (attrs !! k) -> build = Raise TypeError)
  /\
  ((forall k, In k context_keys -> attrs !! k = None) ->
   exists context,
     build = Ok context
     /\ (forall k v, attrs !! k = Some v -> context !! k = Some (VStr v))
     /\ (forall k v,
            In (k, v) (context_keywords env request course_name row activity_info instr) ->
            context !! k = Some v)
     /\ (attrs !! "enable_compare_me" = None ->
         context !! "enable_compare_me" = Some (VStr "true"))).
Proof.
  intros build. subst build. split.
  - intros k Hk Hsome.
    exact (page_context_collision env request course_name row activity_info instr
             attrs k Hk Hsome).
  - intros Hdis. eexists. split; [exact (page_context_disjoint env _ _ _ _ _ attrs Hdis)|].
    assert (Hattr : forall k v, with_compare_default attrs !! k = Some v ->
              ~ In k context_keys ->
              (list_to_map (context_keywords env request course_name row activity_info instr)
                 ∪ (VStr <$> with_compare_default attrs) : gmap string PyVal) !! k
              = Some (VStr v)).
    { intros k v Hv Hk. rewrite lookup_union_r by now apply keywords_lookup_None.
      now rewrite lookup_fmap, Hv. }
    split; [|split].
    + intros k v Hv. apply Hattr; [now apply with_compare_default_keeps|].
      intros Hk. specialize (Hdis k Hk). congruence.
    + intros k v Hin. apply lookup_union_Some_l. now apply keywords_lookup.
    + intros Hnone. apply Hattr; [now apply with_compare_default_sets|].
      apply compare_key_not_fixed.
Qed.

Lemma page_context_merge_witness :
  (page_context Demo.env Demo.anonymous "shadow" Demo.shadow (JObj []) false
     (with_compare_default (Demo.attributes 3)) = Raise TypeError)
  /\
  (exists context,
      page_context Demo.env Demo.anonymous "cs101" Demo.cs101 (JObj []) false
        (with_compare_default (Demo.attributes 2)) = Ok context
      /\ context !! "markup_system" = Some (VStr "PreTeXt")
      /\ context !! "user_id" = Some (VStr "")).
Proof.
  split.
  - apply (proj1 (page_context_merge Demo.env Demo.anonymous "shadow" Demo.shadow
                    (JObj []) false (Demo.attributes 3)) "user_id").
    + simpl. tauto.
    + vm_compute. eexists. reflexivity.
  - destruct (proj2 (page_context_merge Demo.env Demo.anonymous "cs101" Demo.cs101
                       (JObj []) false (Demo.attributes 2)))
      as [context (Hb & Hattr & Hkw & _)].
    + intros k Hk. simpl in Hk.
      repeat (destruct Hk as [<-|Hk]; [vm_compute; reflexivity|]). destruct Hk.
    + exists context. split; [exact Hb|]. split.
      * apply Hattr. vm_compute. reflexivity.
      * apply Hkw. simpl. tauto.
Defined.

(** C8 as stated fails: with a course attribute [user_id] the context
    assembly raises, so no context holds the attribute's value. *)
Lemma course_attr_named_user_id_raises :
  let attrs : gmap string string := {[ "user_id" := "mallory" ]} in
  let build :=
    page_context Demo.env Demo.anonymous "shadow" Demo.shadow (JObj []) false
      (with_compare_default attrs) in
  attrs !! "user_id" = Some "mallory"
  /\ In "user_id" context_keys
  /\ build = Raise TypeError
  /\ ~ (exists context, build = Ok context
                        /\ context !! "user_id" = Some (VStr "mallory")).
Proof.
  intros attrs build.
  assert (Hb : build = Raise TypeError) by (vm_compute; reflexivity).
  split; [vm_compute; reflexivity|].
  split; [simpl; tauto|].
  split; [exact Hb|].
  intros [context [Hok _]]. rewrite Hb in Hok. discriminate.
Qed.

(** ** The event schema and the event store *)

Section EventFacts.

Variable env : Services.

Lemma UseinfoValidation_keywords (e a d c s : string) (t : Z) :
  UseinfoValidation env
    (list_to_map
       [ ("event", VStr e); ("act", VStr a); ("div_id", VStr d);
         ("course_id", VStr c); ("sid", VStr s); ("timestamp", VDatetime t) ])
  = validated env {| ui_timestamp := t; ui_sid := s; ui_event := e;
                 ui_act := a; ui_div_id := d; ui_course_id := c |}.
Proof. reflexivity. Qed.

Lemma entry_dict_course_name (entry : LogItemIncoming) :
  entry_dict entry !! "course_name" = Some (VStr (li_course_name entry)).
Proof. unfold entry_dict. now simplify_map_eq. Qed.

Lemma UseinfoValidation_renamed (entry : LogItemIncoming) (s : string) (t : Z) :
  li_sid entry = Some s -> li_timestamp entry = Some t ->
  UseinfoValidation env (renamed entry)
  = validated env {| ui_timestamp := t; ui_sid := s; ui_event := li_event entry;
                 ui_act := li_act entry; ui_div_id := li_div_id entry;
                 ui_course_id := li_course_name entry |}.
Proof.
  intros Hs Ht. unfold UseinfoValidation, renamed, entry_dict.
  rewrite Hs, Ht. simpl opt_val.
  now simplify_map_eq.
Qed.

Lemma stamped_cases (entry : LogItemIncoming) (request : Request) (now : Z) :
  set_timestamp
    (match state_user request with
     | Some u => set_sid entry (username u)
     | None => set_sid entry "Anonymous"
     end) now
  = stamped entry request now.
Proof. unfold stamped, caller_sid. now destruct (state_user request). Qed.

(** [log_book_event], step by step. *)
Lemma log_book_event_run (entry : LogItemIncoming) (request : Request) (w : World) :
  log_book_event env entry request w =
  let ev := logged_event entry request (clock w) in
  let w1 := log_useinfo w ev in
  let status := Ok (log_status (useinfo_idx env (useinfo w) ev)) in
  if useinfo_schema_ok env ev then
    match EVENT2TABLE env !! li_event entry with
    | None => (status, w1)
    | Some table_name =>
        match validation_tables env !! table_name with
        | None => (Raise KeyError, w1)
        | Some from_orm =>
            match from_orm (stamped entry request (clock w)) with
            | None => (Raise ValidationError, w1)
            | Some a => (status, log_answer w1 (li_event entry) a)
            end
        end
    end
  else (Raise ValidationError, w).
Proof.
  unfold log_book_event, bind at 1, utcnow.
  rewrite stamped_cases.
  set (e' := stamped entry request (clock w)).
  rewrite (entry_dict_course_name e').
  unfold bind at 1, ret at 1.
  change (<["course_id" := VStr (li_course_name e')]>
            (delete "course_name" (entry_dict e'))) with (renamed e').
  unfold bind at 1.
  rewrite (UseinfoValidation_renamed e' (caller_sid request) (clock w) eq_refl eq_refl).
  change {| ui_timestamp := clock w; ui_sid := caller_sid request;
            ui_event := li_event e'; ui_act := li_act e';
            ui_div_id := li_div_id e'; ui_course_id := li_course_name e' |}
    with (logged_event entry request (clock w)).
  cbv zeta. unfold validated.
  destruct (useinfo_schema_ok env (logged_event entry request (clock w)));
    [|reflexivity].
  unfold ret at 1, bind at 1, create_useinfo_entry.
  change (li_event e') with (li_event entry).
  destruct (EVENT2TABLE env !! li_event entry) as [table_name|].
  - destruct (validation_tables env !! table_name) as [from_orm|]; [|reflexivity].
    destruct (from_orm e') as [a|]; [|reflexivity].
    unfold bind, create_answer_table_entry, log_status.
    destruct (useinfo_idx env (useinfo w) (logged_event entry request (clock w)))
      as [z|]; [destruct (truthy_idx (Some z))|]; reflexivity.
  - unfold bind, ret, log_status.
    destruct (useinfo_idx env (useinfo w) (logged_event entry request (clock w)))
      as [z|]; [destruct (truthy_idx (Some z))|]; reflexivity.
Qed.

End EventFacts.

(** C5: the event [log_book_event] persists carries the caller's user name
    (or [Anonymous]) and the server's clock; the whole outcome of the
    call is the same whatever subject and timestamp the payload carried. *)
Theorem log_book_event_stamps (env : Services) (entry : LogItemIncoming)
  (request : Request) (w : World) :
  let ev := logged_event entry request (clock w) in
  let w' := (log_book_event env entry request w).2 in
  ui_sid ev = match state_user request with
              | Some u => username u
              | None => "Anonymous"
              end
  /\ ui_timestamp ev = clock w
  /\ useinfo w' = (if useinfo_schema_ok env ev then useinfo w ++ [ev] else useinfo w)
  /\ (forall (sid : option string) (timestamp : option Z),
         log_book_event env (with_client_fields entry sid timestamp) request w
         = log_book_event env entry request w).
Proof.
  intros ev w'. subst ev w'.
  split; [reflexivity|]. split; [reflexivity|]. split.
  - rewrite log_book_event_run. cbv zeta.
    destruct (useinfo_schema_ok env _); [|reflexivity].
    destruct (EVENT2TABLE env !! li_event entry) as [table_name|]; [|reflexivity].
    destruct (validation_tables env !! table_name) as [from_orm|]; [|reflexivity].
    now destruct (from_orm _).
  - intros sid timestamp. now rewrite !log_book_event_run.
Qed.

(** C6, as the code has it: a payload that passes the event schema adds
    exactly one event row; it adds no answer row when its kind is not
    answer-bearing, one answer row when its kind is answer-bearing and the
    validator of its answer table accepts it, and no answer row, the call
    ending in an error, when that validator is missing or refuses it. *)
Theorem log_book_event_records (env : Services) (entry : LogItemIncoming)
  (request : Request) (w : World) :
  let ev := logged_event entry request (clock w) in
  let r := log_book_event env entry request w in
  let w' := r.2 in
  useinfo_schema_ok env ev = true ->
  (EVENT2TABLE env !! li_event entry = None ->
   useinfo w' = useinfo w ++ [ev] /\ answers w' = answers w)
  /\
  (forall (table_name : string) (from_orm : LogItemIncoming -> option AnswerRecord)
          (a : AnswerRecord),
      EVENT2TABLE env !! li_event entry = Some table_name ->
      validation_tables env !! table_name = Some from_orm ->
      from_orm (stamped entry request (clock w)) = Some a ->
      useinfo w' = useinfo w ++ [ev]
      /\ answers w' = answers w ++ [(li_event entry, a)])
  /\
  (forall (table_name : string),
      EVENT2TABLE env !! li_event entry = Some table_name ->
      validation_tables env !! table_name = None
      \/ (exists from_orm,
             validation_tables env !! table_name = Some from_orm
             /\ from_orm (stamped entry request (clock w)) = None) ->
      (exists e, r.1 = Raise e)
      /\ useinfo w' = useinfo w ++ [ev]
      /\ answers w' = answers w).
Proof.
  intros ev r w' Hok. subst ev w' r. rewrite log_book_event_run. cbv zeta. rewrite Hok.
  split; [|split].
  - intros ->. split; reflexivity.
  - intros table_name from_orm a -> -> ->. split; reflexivity.
  - intros table_name -> [-> | (from_orm & -> & ->)].
    + split; [now exists KeyError|]. split; reflexivity.
    + split; [now exists ValidationError|]. split; reflexivity.
Qed.

Lemma log_book_event_records_witness :
  (let w' := (log_book_event Demo.env Demo.click_entry Demo.anonymous Demo.w0).2 in
   List.length (useinfo w') = 1 /\ answers w' = [])
  /\
  (let w' := (log_book_event Demo.env Demo.mchoice_entry Demo.as_alice Demo.w0).2 in
   List.length (useinfo w') = 1 /\ List.length (answers w') = 1)
  /\
  (let w' := (log_book_event Demo.env Demo2.bare_mchoice Demo.anonymous Demo.w0).2 in
   List.length (useinfo w') = 1 /\ answers w' = []).
Proof.
  split; [|split].
  - destruct (proj1 (log_book_event_records Demo.env Demo.click_entry Demo.anonymous
                       Demo.w0 eq_refl) eq_refl) as [Hu Ha].
    cbv zeta. rewrite Hu, Ha. split; reflexivity.
  - destruct (proj1 (proj2 (log_book_event_records Demo.env Demo.mchoice_entry
                              Demo.as_alice Demo.w0 eq_refl))
                "mchoice_answers" Demo.mchoice_from_orm
                (default {| ar_fields := ∅ |}
                   (Demo.mchoice_from_orm
                      (stamped Demo.mchoice_entry Demo.as_alice (clock Demo.w0))))
                eq_refl eq_refl eq_refl) as [Hu Ha].
    cbv zeta. rewrite Hu, Ha. split; reflexivity.
  - destruct (proj2 (proj2 (log_book_event_records Demo.env Demo2.bare_mchoice
                              Demo.anonymous Demo.w0 eq_refl))
                "mchoice_answers" eq_refl
                (or_intror (ex_intro _ Demo.mchoice_from_orm (conj eq_refl eq_refl))))
      as (_ & Hu & Ha).
    cbv zeta. rewrite Hu, Ha. split; reflexivity.
Defined.

(** C6 as stated fails: a payload that passes [UseinfoValidation] and whose
    kind is in [EVENT2TABLE] leaves one event row and no answer row when
    the validator of its answer table refuses it. *)
Lemma validated_payload_without_answer_row :
  let entry := Demo2.bare_mchoice in
  let sent := stamped entry Demo.anonymous (clock Demo.w0) in
  let r := log_book_event Demo.env entry Demo.anonymous Demo.w0 in
  (UseinfoValidation Demo.env (renamed sent) Demo.w0).1
    = Ok (logged_event entry Demo.anonymous (clock Demo.w0))
  /\ EVENT2TABLE Demo.env !! li_event entry = Some "mchoice_answers"
  /\ r.1 = Raise ValidationError
  /\ List.length (useinfo r.2) = 1
  /\ List.length (answers r.2) = 0
  /\ List.length (useinfo r.2) + List.length (answers r.2) <> 2.
Proof. repeat split; vm_compute; congruence. Qed.

(** ** [serve_page] past the access checks *)

Section RenderFacts.

Variable env : Services.
Variables (request : Request) (course_name pagepath : string).
Variables (row : CourseRow) (dir : string) (w : World).

Hypothesis Hcourse : fetch_course env course_name = Some row.
Hypothesis Haccess : access_granted request course_name row = true.
Hypothesis Hdir :
  safe_join posix (book_path (settings env))
    [base_course row; "published"; base_course row] = Some dir.
Hypothesis Hschema :
  useinfo_schema_ok env (view_event request course_name pagepath (clock w)) = true.

Lemma page_templates_directory : directory (page_templates env row dir) = dir.
Proof. unfold page_templates. now destruct (String.eqb _ _). Qed.

(** Up to the context assembly: the view event is in the store, and what
    remains is the [dict(...)] call and the render. *)
Lemma serve_page_granted :
  serve_page env request course_name pagepath w =
  let w1 := log_useinfo w (view_event request course_name pagepath (clock w)) in
  let t := page_templates env row dir in
  match page_context env request course_name row
          (page_activity_info env request course_name pagepath row)
          (page_is_instructor env request)
          (with_compare_default (fetch_all_course_attributes env (id row))) with
  | Raise e => (Raise e, w1)
  | Ok context =>
      if template_exists env dir pagepath
      then (Ok (TemplateResponse t pagepath context), log_render w1 t pagepath context)
      else (Raise (page_not_found pagepath row), w1)
  end.
Proof.
  unfold access_granted in Haccess.
  apply andb_true_iff in Haccess as [Hlogin Hsame].
  apply negb_true_iff in Hlogin.
  unfold serve_page. rewrite Hcourse, Hlogin.
  replace (match state_user request with
           | Some u => negb (String.eqb (user_course_name u) course_name)
           | None => false
           end) with false
    by (destruct (state_user request); [now rewrite Hsame|reflexivity]).
  rewrite Hdir.
  unfold Jinja2Templates. unfold bind at 1, ret at 1.
  unfold bind at 1, utcnow.
  rewrite UseinfoValidation_keywords.
  change {| ui_timestamp := clock w;
            ui_sid := match state_user request with
                      | Some u => username u
                      | None => "Anonymous"
                      end;
            ui_event := "page"; ui_act := "view";
            ui_div_id := pagepath; ui_course_id := course_name |}
    with (view_event request course_name pagepath (clock w)).
  unfold bind at 1, validated. rewrite Hschema.
  unfold ret at 1, bind at 1, create_useinfo_entry, bind, lift.
  cbv zeta.
  fold (page_activity_info env request course_name pagepath row).
  fold (page_is_instructor env request).
  fold (page_templates env row dir).
  fold (page_not_found pagepath row).
  set (pc := page_context env request course_name row
               (page_activity_info env request course_name pagepath row)
               (page_is_instructor env request)
               (with_compare_default (fetch_all_course_attributes env (id row)))).
  destruct pc as [context|e]; [|reflexivity].
  unfold try_except, render_template, raise.
  rewrite page_templates_directory.
  now destruct (template_exists env dir pagepath).
Qed.

End RenderFacts.

(** A page whose template exists is rendered once, after exactly one view
    event under the caller's name has been stored. *)
Lemma serve_page_renders (env : Services) (request : Request)
  (course_name pagepath : string) (row : CourseRow) (dir : string) (w : World) :
  fetch_course env course_name = Some row ->
  access_granted request course_name row = true ->
  safe_join posix (book_path (settings env))
    [base_course row; "published"; base_course row] = Some dir ->
  useinfo_schema_ok env (view_event request course_name pagepath (clock w)) = true ->
  (forall k, In k context_keys ->
             fetch_all_course_attributes env (id row) !! k = None) ->
  template_exists env dir pagepath = true ->
  exists context,
    serve_page env request course_name pagepath w =
    (Ok (TemplateResponse (page_templates env row dir) pagepath context),
     log_render (log_useinfo w (view_event request course_name pagepath (clock w)))
       (page_templates env row dir) pagepath context).
Proof.
  intros Hc Ha Hd Hs Hkeys Ht.
  rewrite (serve_page_granted env request course_name pagepath row dir w Hc Ha Hd Hs).
  cbv zeta. rewrite page_context_disjoint by exact Hkeys. rewrite Ht.
  now eexists.
Qed.

(** C9, as the code has it: when the course exists, neither redirect
    applies, the template directory resolves, the view event fits the event
    schema and no course attribute is named like a fixed context key, a
    page without a template is answered with 404 after its view event has
    been stored: one more event row, nothing rendered. *)
Theorem serve_page_missing_template (env : Services) (request : Request)
  (course_name pagepath : string) (row : CourseRow) (dir : string) (w : World) :
  fetch_course env course_name = Some row ->
  access_granted request course_name row = true ->
  safe_join posix (book_path (settings env))
    [base_course row; "published"; base_course row] = Some dir ->
  useinfo_schema_ok env (view_event request course_name pagepath (clock w)) = true ->
  (forall k, In k context_keys ->
             fetch_all_course_attributes env (id row) !! k = None) ->
  template_exists env dir pagepath = false ->
  let r := serve_page env request course_name pagepath w in
  r.1 = Raise (page_not_found pagepath row)
  /\ status_of r.1 response_status = 404%Z
  /\ useinfo r.2 = useinfo w ++ [view_event request course_name pagepath (clock w)]
  /\ rendered r.2 = rendered w
  /\ answers r.2 = answers w.
Proof.
  intros Hc Ha Hd Hs Hkeys Ht r. subst r.
  rewrite (serve_page_granted env request course_name pagepath row dir w Hc Ha Hd Hs).
  cbv zeta. rewrite page_context_disjoint by exact Hkeys. rewrite Ht.
  repeat split.
Qed.

Lemma no_fixed_key_in_overview :
  forall k, In k context_keys ->
            fetch_all_course_attributes Demo.env (id Demo.overview) !! k = None.
Proof.
  intros k Hk. simpl in Hk.
  repeat (destruct Hk as [<-|Hk]; [vm_compute; reflexivity|]). destruct Hk.
Qed.

Lemma serve_page_missing_template_witness :
  let r := serve_page Demo.env Demo.anonymous "overview" "missing.html" Demo.w0 in
  status_of r.1 response_status = 404%Z
  /\ useinfo r.2 = [view_event Demo.anonymous "overview" "missing.html" (clock Demo.w0)]
  /\ rendered r.2 = [].
Proof.
  destruct (serve_page_missing_template Demo.env Demo.anonymous "overview"
              "missing.html" Demo.overview "/srv/books/overview/published/overview"
              Demo.w0 eq_refl eq_refl eq_refl eq_refl no_fixed_key_in_overview eq_refl)
    as (_ & Hst & Hu & Hr & _).
  cbv zeta. rewrite Hst, Hu, Hr. repeat split.
Defined.

(** C9 as stated fails: the course exists, no redirect applies and the
    page has no template, yet the reply is not 404: the context assembly
    raises [TypeError] first.  The view event is stored all the same. *)
Lemma missing_template_with_user_id_attribute :
  let r := serve_page Demo.env Demo.anonymous "shadow" "missing.html" Demo.w0 in
  fetch_course Demo.env "shadow" = Some Demo.shadow
  /\ access_granted Demo.anonymous "shadow" Demo.shadow = true
  /\ template_exists Demo.env "/srv/books/overview/published/overview" "missing.html"
     = false
  /\ r.1 = Raise TypeError
  /\ status_of r.1 response_status = 500%Z
  /\ status_of r.1 response_status <> 404%Z
  /\ useinfo r.2 = [view_event Demo.anonymous "shadow" "missing.html" (clock Demo.w0)].
Proof.
  cbv zeta.
  assert (Hr : (serve_page Demo.env Demo.anonymous "shadow" "missing.html" Demo.w0).1
               = Raise TypeError) by (vm_compute; reflexivity).
  rewrite Hr.
  split; [reflexivity|]. split; [reflexivity|]. split; [reflexivity|].
  split; [reflexivity|]. split; [reflexivity|]. split; [discriminate|].
  vm_compute. reflexivity.
Qed.

(** ** The timezone cookie: [set_tz_offset] *)

Lemma dict_get_set_eq (d : list (string * JSON)) (k : string) (v : JSON) :
  dict_get (dict_set d k v) k = Some v.
Proof.
  induction d as [|[k' v'] d IH]; simpl.
  - now rewrite String.eqb_refl.
  - destruct (String.eqb k' k) eqn:Hk; simpl; rewrite Hk; [reflexivity|exact IH].
Qed.

Lemma dict_get_set_ne (d : list (string * JSON)) (k k0 : string) (v : JSON) :
  k0 <> k -> dict_get (dict_set d k v) k0 = dict_get d k0.
Proof.
  intros Hne. induction d as [|[k' v'] d IH]; simpl.
  - destruct (String.eqb k k0) eqn:Hk; [|reflexivity].
    apply String.eqb_eq in Hk. congruence.
  - destruct (String.eqb k' k) eqn:Hk; simpl.
    + apply String.eqb_eq in Hk. subst k'.
      destruct (String.eqb k k0) eqn:Hk0; [|reflexivity].
      apply String.eqb_eq in Hk0. congruence.
    + now rewrite IH.
Qed.

(** Keys keep their order; a new key goes last. *)
Lemma dict_set_keys (d : list (string * JSON)) (k : string) (v : JSON) :
  List.map fst (dict_set d k v) =
  if existsb (String.eqb k) (List.map fst d) then List.map fst d
  else List.map fst d ++ [k].
Proof.
  induction d as [|[k' v'] d IH]; simpl; [reflexivity|].
  rewrite (String.eqb_sym k k').
  destruct (String.eqb k' k) eqn:Hk; simpl.
  - apply String.eqb_eq in Hk. now subst k'.
  - rewrite IH. now destruct (existsb _ _).
Qed.

(** The members under other keys are left as they are, in their order. *)
Lemma dict_set_others (d : list (string * JSON)) (k : string) (v : JSON) :
  other_members k (dict_set d k v) = other_members k d.
Proof.
  unfold other_members.
  induction d as [|[k' v'] d IH]; simpl.
  - now rewrite String.eqb_refl.
  - destruct (String.eqb k' k) eqn:Hk; simpl; rewrite Hk; simpl; [reflexivity|].
    now rewrite IH.
Qed.

Lemma In_key (d : list (string * JSON)) (k : string) (v : JSON) :
  In (k, v) d -> In k (List.map fst d).
Proof. intros H. apply List.in_map_iff. now exists (k, v). Qed.

(** On a dictionary (an object whose keys are distinct) the assignment
    leaves exactly one member under the key. *)
Lemma dict_set_In (d : list (string * JSON)) (k : string) (v : JSON) :
  List.NoDup (List.map fst d) ->
  forall k0 v0,
    In (k0, v0) (dict_set d k v)
    <-> (k0 = k /\ v0 = v) \/ (k0 <> k /\ In (k0, v0) d).
Proof.
  induction d as [|[k' v'] d IH]; intros Hnd k0 v0.
  - simpl. split.
    + intros [H | []]. injection H as <- <-. now left.
    + intros [[-> ->] | [_ []]]. now left.
  - simpl in Hnd. inversion Hnd as [|? ? Hnotin Hnd']; subst.
    simpl. destruct (String.eqb k' k) eqn:Hk.
    + apply String.eqb_eq in Hk. subst k'. simpl. split.
      * intros [H | H]; [injection H as <- <-; now left|].
        right. split; [|now right].
        intros ->. apply Hnotin. exact (In_key d k v0 H).
      * intros [[-> ->] | [Hne [H | H]]]; [now left| |now right].
        injection H as <- _. congruence.
    + apply String.eqb_neq in Hk. simpl. rewrite (IH Hnd' k0 v0). split.
      * intros [H | [H | [Hne H]]].
        -- injection H as <- <-. right. split; [exact Hk|now left].
        -- now left.
        -- right. split; [exact Hne|now right].
      * intros [H | [Hne [H | H]]].
        -- right. now left.
        -- now left.
        -- right. right. now split.
Qed.

Lemma dict_set_NoDup (d : list (string * JSON)) (k : string) (v : JSON) :
  List.NoDup (List.map fst d) -> List.NoDup (List.map fst (dict_set d k v)).
Proof.
  intros Hnd. rewrite dict_set_keys.
  destruct (existsb (String.eqb k) (List.map fst d)) eqn:Hex; [exact Hnd|].
  apply List.NoDup_app; [exact Hnd|repeat constructor; simpl; tauto|].
  intros x Hx [<- | []].
  assert (existsb (String.eqb k) (List.map fst d) = true); [|congruence].
  apply List.existsb_exists. exists k. split; [exact Hx|apply String.eqb_refl].
Qed.

(** C10: with a cookie that decodes to an object, the cookie written back
    is the encoding of that object with [tz_offset] set to the requested
    offset and every other member as it was: no key is added besides
    [tz_offset], none is dropped, repeated or moved, and on an object with
    distinct keys the members are exactly the new [tz_offset] and the old
    members under other keys.  Without a cookie it is the encoding of the
    object whose only key is [tz_offset]. *)
Theorem set_tz_offset_merges (env : Services) (response : list (string * string))
  (timezoneoffset : Z) :
  (forall (s : string) (d : list (string * JSON)),
      s <> "" ->
      json_loads env s = Some (JObj d) ->
      exists d',
        set_tz_offset env response timezoneoffset (Some s)
        = Ok ("done", response ++ [("RS_info", json_dumps env (JObj d'))])
        /\ dict_get d' "tz_offset" = Some (JInt timezoneoffset)
        /\ (forall k, k <> "tz_offset" -> dict_get d' k = dict_get d k)
        /\ List.map fst d'
           = (if existsb (String.eqb "tz_offset") (List.map fst d)
              then List.map fst d else List.map fst d ++ ["tz_offset"])
        /\ other_members "tz_offset" d' = other_members "tz_offset" d
        /\ (List.NoDup (List.map fst d) ->
            List.NoDup (List.map fst d')
            /\ forall k v,
                 In (k, v) d'
                 <-> (k = "tz_offset" /\ v = JInt timezoneoffset)
                     \/ (k <> "tz_offset" /\ In (k, v) d)))
  /\
  set_tz_offset env response timezoneoffset None
  = Ok ("done",
        response ++ [("RS_info", json_dumps env (JObj [("tz_offset", JInt timezoneoffset)]))]).
Proof.
  split; [|reflexivity].
  intros s d Hne Hload.
  exists (dict_set d "tz_offset" (JInt timezoneoffset)).
  split; [|split; [|split; [|split; [|split]]]].
  - unfold set_tz_offset, truthy_str.
    assert (Hs : String.eqb s "" = false) by now apply String.eqb_neq.
    now rewrite Hs, Hload.
  - apply dict_get_set_eq.
  - intros k Hk. now apply dict_get_set_ne.
  - apply dict_set_keys.
  - apply dict_set_others.
  - intros Hnd. split; [now apply dict_set_NoDup|now apply dict_set_In].
Qed.

Lemma set_tz_offset_merges_witness :
  exists d',
    set_tz_offset Demo2.env [] 7 (Some (Demo.dumps (JObj Demo2.prefs1)))
    = Ok ("done", [("RS_info", json_dumps Demo2.env (JObj d'))])
    /\ List.map fst d' = ["theme"; "tz_offset"]
    /\ (forall k v, In (k, v) d'
                    <-> (k = "tz_offset" /\ v = JInt 7)
                        \/ (k <> "tz_offset" /\ In (k, v) Demo2.prefs1)).
Proof.
  destruct (proj1 (set_tz_offset_merges Demo2.env [] 7)
              (Demo.dumps (JObj Demo2.prefs1)) Demo2.prefs1)
    as [d' (Hset & _ & _ & Hkeys & _ & Hdict)].
  - discriminate.
  - reflexivity.
  - exists d'. split; [exact Hset|]. split; [exact Hkeys|].
    apply Hdict. repeat constructor; simpl; intuition discriminate.
Defined.

(** * Further properties *)

(** ** Splitting and joining on the slash *)

Lemma split_sep (c : ascii) (s : string) :
  Str.split c (String c s) = "" :: Str.split c s.
Proof. simpl. now rewrite Ascii.eqb_refl. Qed.

Lemma split_not_nil (c : ascii) (s : string) : Str.split c s <> [].
Proof.
  induction s as [|a s IH]; simpl; [discriminate|].
  destruct (Ascii.eqb a c); [discriminate|].
  destruct (Str.split c s); discriminate.
Qed.

Lemma join_cons (sep x : string) (l : list string) :
  l <> [] -> Str.join sep (x :: l) = x +:+ sep +:+ Str.join sep l.
Proof. destruct l; [congruence|reflexivity]. Qed.

Lemma join_cons_char (c a : ascii) (h : string) (t : list string) :
  Str.join (String c "") (String a h :: t) = String a (Str.join (String c "") (h :: t)).
Proof. destruct t; reflexivity. Qed.

Lemma join_split (c : ascii) (s : string) :
  Str.join (String c "") (Str.split c s) = s.
Proof.
  induction s as [|a s IH]; [reflexivity|].
  simpl Str.split. destruct (Ascii.eqb a c) eqn:Hac.
  - apply Ascii.eqb_eq in Hac. subst a.
    rewrite join_cons by apply split_not_nil. simpl. now rewrite IH.
  - destruct (Str.split c s) as [|h t] eqn:Hs; [now apply split_not_nil in Hs|].
    rewrite join_cons_char. now rewrite IH.
Qed.

Lemma contains_char_cons (c a : ascii) (h : string) :
  Str.contains (String c "") (String a h) = Ascii.eqb a c || Str.contains (String c "") h.
Proof. simpl. now rewrite andb_true_r. Qed.

Lemma split_no_sep (c : ascii) (x : string) :
  Str.contains (String c "") x = false -> Str.split c x = [x].
Proof.
  induction x as [|a x IH]; intros H; [reflexivity|].
  rewrite contains_char_cons in H. apply orb_false_iff in H as [Ha Hx].
  simpl. rewrite Ha, (IH Hx). reflexivity.
Qed.

Lemma split_app_sep (c : ascii) (x rest : string) :
  Str.contains (String c "") x = false ->
  Str.split c (x +:+ String c rest) = x :: Str.split c rest.
Proof.
  induction x as [|a x IH]; intros H.
  - simpl. now rewrite Ascii.eqb_refl.
  - rewrite contains_char_cons in H. apply orb_false_iff in H as [Ha Hx].
    simpl. rewrite Ha. simpl in IH. now rewrite (IH Hx).
Qed.

Lemma split_join (c : ascii) (l : list string) :
  l <> [] ->
  Forall (fun x => Str.contains (String c "") x = false) l ->
  Str.split c (Str.join (String c "") l) = l.
Proof.
  induction l as [|x l IH]; intros Hne Hall; [congruence|].
  inversion Hall as [|? ? Hx Hl]; subst.
  destruct l as [|y l].
  - simpl. now apply split_no_sep.
  - rewrite join_cons by discriminate.
    change (x +:+ String c "" +:+ Str.join (String c "") (y :: l))
      with (x +:+ String c (Str.join (String c "") (y :: l))).
    rewrite (split_app_sep c x _ Hx). f_equal. apply IH; [discriminate|exact Hl].
Qed.

Lemma split_comps_no_sep (c : ascii) (s : string) :
  Forall (fun x => Str.contains (String c "") x = false) (Str.split c s).
Proof.
  induction s as [|a s IH]; simpl.
  - constructor; [reflexivity|constructor].
  - destruct (Ascii.eqb a c) eqn:Hac.
    + constructor; [reflexivity|exact IH].
    + destruct (Str.split c s) as [|h t]; [repeat constructor; simpl; now rewrite Hac|].
      inversion IH as [|? ? Hh Ht]; subst.
      constructor; [|exact Ht]. rewrite contains_char_cons, Hac. exact Hh.
Qed.

(** X6: [URL] puts back together what splitting on the slash took apart. *)
Theorem URL_split (s : string) : URL (Str.split "/" s) = s.
Proof. apply (join_split "/"). Qed.

(** X7: Pieces without a slash are recovered from the URL built of them. *)
Theorem split_URL (argv : list string) :
  argv <> [] ->
  Forall (fun x => Str.contains "/" x = false) argv ->
  Str.split "/" (URL argv) = argv.
Proof. apply (split_join "/"). Qed.

Lemma split_URL_witness :
  Str.split "/" (URL ["books"; "published"; "overview"; "index.html"])
  = ["books"; "published"; "overview"; "index.html"].
Proof.
  apply (split_URL ["books"; "published"; "overview"; "index.html"]).
  - discriminate.
  - repeat constructor.
Defined.

(** ** The components [normpath] keeps *)

Lemma plain_comp_spec (c : string) :
  plain_comp c = true ->
  String.eqb c "" = false /\ String.eqb c "." = false /\ String.eqb c ".." = false
  /\ Str.contains "/" c = false.
Proof.
  unfold plain_comp. rewrite !andb_true_iff, !negb_true_iff. tauto.
Qed.

Lemma comp_cases (c : string) :
  Str.contains "/" c = false ->
  c = "" \/ c = "." \/ c = ".." \/ plain_comp c = true.
Proof.
  intros H. unfold plain_comp. rewrite H.
  destruct (String.eqb c "") eqn:H1; [apply String.eqb_eq in H1; auto|].
  destruct (String.eqb c ".") eqn:H2; [apply String.eqb_eq in H2; auto|].
  destruct (String.eqb c "..") eqn:H3; [apply String.eqb_eq in H3; auto|].
  now repeat right.
Qed.

Lemma step_skip (s : nat) (l : list string) (c : string) :
  c = "" \/ c = "." -> posixpath.normpath_step s l c = l.
Proof. intros [-> | ->]; reflexivity. Qed.

Lemma step_plain (s : nat) (l : list string) (c : string) :
  plain_comp c = true -> posixpath.normpath_step s l c = l ++ [c].
Proof.
  intros H. apply plain_comp_spec in H as (H1 & H2 & H3 & _).
  unfold posixpath.normpath_step. now rewrite H1, H2, H3.
Qed.

Lemma step_dotdot_last (s : nat) (l : list string) (x : string) :
  x = ".." -> posixpath.normpath_step s (l ++ [x]) ".." = (l ++ [x]) ++ [".."].
Proof.
  intros ->. unfold posixpath.normpath_step.
  cbn [String.eqb Ascii.eqb Bool.eqb andb orb negb].
  rewrite List.last_last.
  destruct (l ++ [".."]) eqn:Hl; [now destruct l|].
  cbn [posixpath.is_nil negb andb String.eqb Ascii.eqb Bool.eqb].
  now rewrite orb_true_r.
Qed.

Lemma step_dotdot_pop (s : nat) (l : list string) (x : string) :
  String.eqb x ".." = false -> posixpath.normpath_step s (l ++ [x]) ".." = l.
Proof.
  intros Hx. unfold posixpath.normpath_step.
  cbn [String.eqb Ascii.eqb Bool.eqb andb orb negb].
  rewrite List.last_last, Hx.
  destruct (l ++ [x]) eqn:Hl; [now destruct l|].
  cbn [posixpath.is_nil negb andb orb]. rewrite andb_false_r.
  rewrite <- Hl. apply List.removelast_last.
Qed.

Lemma repeat_snoc (k : nat) : List.repeat ".." k ++ [".."] = List.repeat ".." (S k).
Proof. induction k as [|k IH]; [reflexivity|]. simpl. now rewrite IH. Qed.

(** In a relative path every [..] that is kept stands before every name. *)
Lemma step_shape_rel (l : list string) (c : string) :
  (exists k rest, l = List.repeat ".." k ++ rest
                  /\ Forall (fun x => plain_comp x = true) rest) ->
  Str.contains "/" c = false ->
  exists k rest, posixpath.normpath_step 0 l c = List.repeat ".." k ++ rest
                 /\ Forall (fun x => plain_comp x = true) rest.
Proof.
  intros (k & rest & -> & Hrest) Hc.
  destruct (comp_cases c Hc) as [-> | [-> | [-> | Hp]]].
  - exists k, rest. split; [reflexivity|exact Hrest].
  - exists k, rest. split; [reflexivity|exact Hrest].
  - destruct rest as [|r rest0].
    + rewrite app_nil_r. destruct k as [|k].
      * exists 1, []. split; [reflexivity|constructor].
      * exists (S (S k)), []. split; [|constructor].
        rewrite <- (repeat_snoc k), step_dotdot_last by reflexivity.
        now rewrite app_nil_r, !repeat_snoc.
    + destruct (List.exists_last (l := r :: rest0)) as (rest' & x & Hlast);
        [discriminate|].
      rewrite Hlast in *. apply Forall_app in Hrest as [Hrest' Hx].
      inversion Hx as [|? ? Hpx _]; subst.
      apply plain_comp_spec in Hpx as (_ & _ & Hx3 & _).
      rewrite app_assoc, (step_dotdot_pop 0 _ x Hx3).
      exists k, rest'. split; [reflexivity|exact Hrest'].
  - rewrite (step_plain 0 _ c Hp). exists k, (rest ++ [c]).
    split; [now rewrite app_assoc|].
    apply Forall_app. split; [exact Hrest|now constructor].
Qed.

(** In an absolute path no [..] is kept at all. *)
Lemma step_shape_abs (s : nat) (l : list string) (c : string) :
  s <> 0 ->
  Forall (fun x => plain_comp x = true) l ->
  Str.contains "/" c = false ->
  Forall (fun x => plain_comp x = true) (posixpath.normpath_step s l c).
Proof.
  intros Hs Hl Hc.
  destruct (comp_cases c Hc) as [-> | [-> | [-> | Hp]]].
  - exact Hl.
  - exact Hl.
  - destruct l as [|r l0].
    + destruct s; [congruence|]. cbv. constructor.
    + destruct (List.exists_last (l := r :: l0)) as (l' & x & Hlast);
        [discriminate|].
      rewrite Hlast in *. apply Forall_app in Hl as [Hl' Hx].
      inversion Hx as [|? ? Hpx _]; subst.
      apply plain_comp_spec in Hpx as (_ & _ & Hx3 & _).
      now rewrite (step_dotdot_pop s _ x Hx3).
  - rewrite (step_plain s _ c Hp). apply Forall_app. split; [exact Hl|now constructor].
Qed.

Lemma fold_shape_rel (comps l : list string) :
  Forall (fun c => Str.contains "/" c = false) comps ->
  (exists k rest, l = List.repeat ".." k ++ rest
                  /\ Forall (fun x => plain_comp x = true) rest) ->
  exists k rest, fold_left (posixpath.normpath_step 0) comps l
                 = List.repeat ".." k ++ rest
                 /\ Forall (fun x => plain_comp x = true) rest.
Proof.
  revert l; induction comps as [|c comps IH]; intros l Hc Hl; simpl; [exact Hl|].
  inversion Hc as [|? ? Hc1 Hc2]; subst.
  apply (IH _ Hc2). now apply step_shape_rel.
Qed.

Lemma fold_shape_abs (s : nat) (comps l : list string) :
  s <> 0 ->
  Forall (fun c => Str.contains "/" c = false) comps ->
  Forall (fun x => plain_comp x = true) l ->
  Forall (fun x => plain_comp x = true) (fold_left (posixpath.normpath_step s) comps l).
Proof.
  intros Hs. revert l; induction comps as [|c comps IH]; intros l Hc Hl; simpl;
    [exact Hl|].
  inversion Hc as [|? ? Hc1 Hc2]; subst.
  apply (IH _ Hc2). now apply step_shape_abs.
Qed.

Lemma normpath_comps_rel (p : string) :
  posixpath.isabs p = false ->
  exists k rest, normpath_comps p = List.repeat ".." k ++ rest
                 /\ Forall (fun x => plain_comp x = true) rest.
Proof.
  intros Hrel. unfold normpath_comps. rewrite (initial_slashes_rel p Hrel).
  apply fold_shape_rel; [apply (split_comps_no_sep "/")|].
  exists 0, []. split; [reflexivity|constructor].
Qed.

Lemma normpath_comps_abs (p : string) :
  posixpath.isabs p = true ->
  Forall (fun x => plain_comp x = true) (normpath_comps p).
Proof.
  intros Habs. unfold normpath_comps.
  apply fold_shape_abs; [|apply (split_comps_no_sep "/")|constructor].
  destruct (initial_slashes_abs p Habs) as [-> | ->]; discriminate.
Qed.

(** [normpath], in terms of the components it keeps. *)
Lemma normpath_unfold (p : string) :
  p <> "" ->
  posixpath.normpath p =
  let j := URL (normpath_comps p) in
  let path := if Nat.eqb (posixpath.initial_slashes p) 0 then j
              else Str.repeat "/" (posixpath.initial_slashes p) +:+ j in
  if String.eqb path "" then "." else path.
Proof.
  intros Hne. apply String.eqb_neq in Hne.
  unfold posixpath.normpath. now rewrite Hne.
Qed.

Lemma normalized_nonempty (f : string) : f <> "" -> normalized f = posixpath.normpath f.
Proof.
  intros Hne. apply String.eqb_neq in Hne. unfold normalized. now rewrite Hne.
Qed.

(** The text of a non-empty list of components begins like its first one. *)
Lemma URL_head (c : string) (tl : list string) :
  c = ".." \/ plain_comp c = true ->
  exists a x, URL (c :: tl) = String a x /\ Ascii.eqb a "/" = false.
Proof.
  intros Hc. unfold URL.
  assert (H : exists a h, c = String a h /\ Ascii.eqb a "/" = false).
  { destruct Hc as [-> | Hp]; [now exists "."%char, "."|].
    apply plain_comp_spec in Hp as (H1 & _ & _ & H4).
    destruct c as [|a h]; [discriminate|].
    change "/" with (String "/" "") in H4.
    rewrite contains_char_cons in H4. apply orb_false_iff in H4 as [Ha _].
    now exists a, h. }
  destruct H as (a & h & -> & Ha).
  exists a, (Str.join "/" (h :: tl)). split; [apply (join_cons_char "/")|exact Ha].
Qed.

Lemma shape_head (k : nat) (rest : list string) (c : string) (tl : list string) :
  List.repeat ".." k ++ rest = c :: tl ->
  Forall (fun x => plain_comp x = true) rest ->
  c = ".." \/ plain_comp c = true.
Proof.
  intros Heq Hrest. destruct k as [|k]; simpl in Heq.
  - subst rest. inversion Hrest; subst. now right.
  - injection Heq as <- _. now left.
Qed.

(** The normal form of a relative, non-empty segment. *)
Lemma normpath_rel (p : string) :
  p <> "" -> posixpath.isabs p = false ->
  exists k rest,
    normpath_comps p = List.repeat ".." k ++ rest
    /\ Forall (fun x => plain_comp x = true) rest
    /\ posixpath.normpath p =
       match List.repeat ".." k ++ rest with
       | [] => "."
       | _ => URL (List.repeat ".." k ++ rest)
       end.
Proof.
  intros Hne Hrel.
  destruct (normpath_comps_rel p Hrel) as (k & rest & Hcomps & Hrest).
  exists k, rest. split; [exact Hcomps|]. split; [exact Hrest|].
  rewrite (normpath_unfold p Hne), (initial_slashes_rel p Hrel), Hcomps.
  cbv zeta. simpl Nat.eqb. cbv iota.
  destruct (List.repeat ".." k ++ rest) as [|c tl] eqn:Hl; [reflexivity|].
  destruct (URL_head c tl (shape_head k rest c tl Hl Hrest)) as (a & x & -> & _).
  reflexivity.
Qed.

(** Normalisation keeps a relative segment relative and an absolute one
    absolute. *)
Lemma normalized_isabs (f : string) :
  posixpath.isabs (normalized f) = posixpath.isabs f.
Proof.
  destruct (String.eqb f "") eqn:Hf.
  - apply String.eqb_eq in Hf. now subst f.
  - apply String.eqb_neq in Hf.
    destruct (posixpath.isabs f) eqn:Habs; [now apply normalized_keeps_root|].
    rewrite (normalized_nonempty f Hf).
    destruct (normpath_rel f Hf Habs) as (k & rest & _ & Hrest & ->).
    destruct (List.repeat ".." k ++ rest) as [|c tl] eqn:Hl; [reflexivity|].
    destruct (URL_head c tl (shape_head k rest c tl Hl Hrest)) as (a & x & -> & Ha).
    unfold posixpath.isabs. simpl. now rewrite Ha.
Qed.

(** ** [safe_join], completely *)

Lemma safe_join_loop_spec (os : OsPath) (pathnames parts : list string) :
  safe_join_loop os parts pathnames =
  if existsb (fun f => rejected os (normalized f)) pathnames then None
  else Some (parts ++ List.map normalized pathnames).
Proof.
  revert parts; induction pathnames as [|f rest IH]; intros parts.
  - simpl. now rewrite app_nil_r.
  - rewrite safe_join_loop_step. simpl existsb.
    destruct (rejected os (normalized f)); [reflexivity|].
    rewrite IH. simpl. destruct (existsb _ rest); [reflexivity|].
    now rewrite <- app_assoc.
Qed.

Lemma safe_join_eq (os : OsPath) (directory : string) (pathnames : list string) :
  safe_join os directory pathnames =
  if existsb (fun f => rejected os (normalized f)) pathnames then None
  else Some (posixpath.join directory (List.map normalized pathnames)).
Proof.
  unfold safe_join. rewrite safe_join_loop_spec.
  now destruct (existsb _ pathnames).
Qed.

Lemma accepted_segment (directory : string) (pathnames : list string) (p f : string) :
  safe_join posix directory pathnames = Some p ->
  In f pathnames ->
  rejected posix (normalized f) = false.
Proof.
  rewrite safe_join_eq. intros H Hin.
  destruct (existsb _ pathnames) eqn:Hex; [discriminate|].
  destruct (rejected posix (normalized f)) eqn:Hr; [|reflexivity].
  assert (existsb (fun f => rejected posix (normalized f)) pathnames = true);
    [|congruence].
  apply List.existsb_exists. now exists f.
Qed.

Lemma rejected_posix_false (x : string) :
  rejected posix x = false ->
  posixpath.isabs x = false /\ x <> ".." /\ Str.startswith x "../" = false.
Proof.
  unfold rejected. simpl. rewrite !orb_false_iff.
  intros ((Habs & Heq) & Hpre). split; [exact Habs|]. split; [|exact Hpre].
  now apply String.eqb_neq.
Qed.

Lemma safe_join_plain_seg (directory : string) (pathnames : list string)
  (p f : string) :
  safe_join posix directory pathnames = Some p ->
  In f pathnames ->
  (f = "" /\ normalized f = "")
  \/ normalized f = "."
  \/ exists comps, comps <> []
                   /\ Forall (fun c => plain_comp c = true) comps
                   /\ normalized f = URL comps.
Proof.
  intros Hjoin Hin.
  pose proof (accepted_segment directory pathnames p f Hjoin Hin) as Hacc.
  apply rejected_posix_false in Hacc as (Habs & Hne2 & Hpre).
  destruct (String.eqb f "") eqn:Hf.
  - apply String.eqb_eq in Hf. subst f. now left.
  - right. apply String.eqb_neq in Hf.
    rewrite normalized_isabs in Habs.
    rewrite (normalized_nonempty f Hf) in *.
    destruct (normpath_rel f Hf Habs) as (k & rest & _ & Hrest & Hn).
    rewrite Hn in *. clear Hn.
    destruct k as [|k].
    + simpl in *. destruct rest as [|c tl]; [now left|].
      right. exists (c :: tl). split; [discriminate|]. now split.
    + exfalso.
      change (List.repeat ".." (S k) ++ rest)
        with (".." :: (List.repeat ".." k ++ rest)) in Hne2, Hpre.
      cbv beta iota in Hne2, Hpre.
      destruct (join_dotdot (List.repeat ".." k ++ rest)) as [Hj | Hj].
      * apply Hne2. exact Hj.
      * change (Str.join posixpath.sep (".." :: List.repeat ".." k ++ rest))
          with (URL (".." :: List.repeat ".." k ++ rest)) in Hj.
        congruence.
Qed.

(** X2: Every segment [safe_join] accepts is, once normalised, empty (when it
    was given empty), [.], or a sequence of plain names joined by slashes:
    no [..], no [.], no empty component is left in it. *)
Theorem safe_join_plain_segments (directory : string) (pathnames : list string)
  (p f : string) :
  safe_join posix directory pathnames = Some p ->
  In f pathnames ->
  (f = "" /\ normalized f = "")
  \/ normalized f = "."
  \/ exists comps, comps <> []
                   /\ Forall (fun c => plain_comp c = true) comps
                   /\ normalized f = URL comps.
Proof. apply safe_join_plain_seg. Qed.

Lemma safe_join_plain_segments_witness :
  exists comps, comps <> []
                /\ Forall (fun c => plain_comp c = true) comps
                /\ normalized "img/./icons/../logo.png" = URL comps.
Proof.
  destruct (safe_join_plain_segments "/srv/books"
              ["overview"; "_images"; "img/./icons/../logo.png"]
              "/srv/books/overview/_images/img/logo.png"
              "img/./icons/../logo.png" eq_refl)
    as [[Hf _] | [Hdot | Hcomps]].
  - simpl. tauto.
  - discriminate Hf.
  - vm_compute in Hdot. discriminate Hdot.
  - exact Hcomps.
Defined.

(** ** Normalising twice *)

Lemma fold_plain (s : nat) (rest acc : list string) :
  Forall (fun x => plain_comp x = true) rest ->
  fold_left (posixpath.normpath_step s) rest acc = acc ++ rest.
Proof.
  revert acc; induction rest as [|c rest IH]; intros acc H; simpl.
  - now rewrite app_nil_r.
  - inversion H as [|? ? Hc Hrest]; subst.
    rewrite (step_plain s acc c Hc), (IH _ Hrest). now rewrite <- app_assoc.
Qed.

Lemma fold_dotdots (k j : nat) :
  fold_left (posixpath.normpath_step 0) (List.repeat ".." k) (List.repeat ".." j)
  = List.repeat ".." (j + k).
Proof.
  revert j; induction k as [|k IH]; intros j; simpl.
  - now rewrite Nat.add_0_r.
  - replace (posixpath.normpath_step 0 (List.repeat ".." j) "..")
      with (List.repeat ".." (S j)).
    + rewrite IH. f_equal. lia.
    + destruct j as [|j]; [reflexivity|].
      rewrite <- (repeat_snoc j), step_dotdot_last by reflexivity.
      now rewrite !repeat_snoc.
Qed.

Lemma fold_shape_id (k : nat) (rest : list string) :
  Forall (fun x => plain_comp x = true) rest ->
  fold_left (posixpath.normpath_step 0) (List.repeat ".." k ++ rest) []
  = List.repeat ".." k ++ rest.
Proof.
  intros H. rewrite fold_left_app.
  change (@nil string) with (List.repeat ".." 0) at 1.
  now rewrite fold_dotdots, (fold_plain 0 rest _ H).
Qed.

Lemma shape_no_sep (k : nat) (rest : list string) :
  Forall (fun x => plain_comp x = true) rest ->
  Forall (fun x => Str.contains "/" x = false) (List.repeat ".." k ++ rest).
Proof.
  intros H. apply Forall_app. split.
  - induction k; simpl; constructor; [reflexivity|assumption].
  - eapply Forall_impl; [exact H|]. intros x Hx.
    now apply plain_comp_spec in Hx as (_ & _ & _ & Hx).
Qed.

Lemma normpath_idem_rel (k : nat) (rest : list string) (c : string) (tl : list string) :
  List.repeat ".." k ++ rest = c :: tl ->
  Forall (fun x => plain_comp x = true) rest ->
  posixpath.normpath (URL (c :: tl)) = URL (c :: tl).
Proof.
  intros Hl Hrest.
  destruct (URL_head c tl (shape_head k rest c tl Hl Hrest)) as (a & x & Hu & Ha).
  assert (Hne : URL (c :: tl) <> "") by (rewrite Hu; discriminate).
  assert (Hrel : posixpath.isabs (URL (c :: tl)) = false).
  { rewrite Hu. unfold posixpath.isabs. simpl. now rewrite Ha. }
  assert (Hcomps : normpath_comps (URL (c :: tl)) = c :: tl).
  { unfold normpath_comps. rewrite (initial_slashes_rel _ Hrel).
    unfold URL. rewrite (split_join "/");
      [|discriminate|rewrite <- Hl; now apply shape_no_sep].
    rewrite <- Hl. now apply fold_shape_id. }
  rewrite (normpath_unfold _ Hne), Hcomps, (initial_slashes_rel _ Hrel).
  cbv zeta. simpl Nat.eqb. cbv iota. rewrite Hu. reflexivity.
Qed.

Lemma normpath_idem_abs (s : nat) (l : list string) :
  s = 1 \/ s = 2 ->
  Forall (fun x => plain_comp x = true) l ->
  posixpath.normpath (Str.repeat "/" s +:+ URL l) = Str.repeat "/" s +:+ URL l.
Proof.
  intros Hs Hl. destruct l as [|c tl].
  - destruct Hs as [-> | ->]; reflexivity.
  - assert (Hc : c = ".." \/ plain_comp c = true)
      by (inversion Hl; subst; now right).
    destruct (URL_head c tl Hc) as (a & x & Hu & Ha).
    assert (Hsplit : Str.split "/" (URL (c :: tl)) = c :: tl).
    { apply (split_join "/"); [discriminate|]. apply (shape_no_sep 0 _ Hl). }
    assert (Hfold : forall n, fold_left (posixpath.normpath_step n) (c :: tl) []
                              = c :: tl)
      by (intros n; now rewrite (fold_plain n _ [] Hl)).
    assert (Hi : posixpath.initial_slashes (Str.repeat "/" s +:+ URL (c :: tl)) = s).
    { rewrite Hu. unfold posixpath.initial_slashes.
      destruct Hs as [-> | ->]; simpl; now rewrite Ha. }
    assert (Hcomps : normpath_comps (Str.repeat "/" s +:+ URL (c :: tl)) = c :: tl).
    { unfold normpath_comps. rewrite Hi. destruct Hs as [-> | ->].
      - change (Str.repeat "/" 1 +:+ URL (c :: tl)) with (String "/" (URL (c :: tl))).
        rewrite split_sep, Hsplit. apply (Hfold 1).
      - change (Str.repeat "/" 2 +:+ URL (c :: tl))
          with (String "/" (String "/" (URL (c :: tl)))).
        rewrite !split_sep, Hsplit. apply (Hfold 2). }
    rewrite normpath_unfold by (destruct Hs as [-> | ->]; discriminate).
    rewrite Hcomps, Hi.
    destruct Hs as [-> | ->]; reflexivity.
Qed.

(** Normalising a segment a second time changes nothing. *)
Lemma normalized_idempotent (f : string) :
  normalized (normalized f) = normalized f.
Proof.
  destruct (String.eqb f "") eqn:Hf.
  - apply String.eqb_eq in Hf. now subst f.
  - apply String.eqb_neq in Hf.
    rewrite (normalized_nonempty f Hf).
    destruct (posixpath.isabs f) eqn:Habs.
    + rewrite (normpath_unfold f Hf).
      pose proof (normpath_comps_abs f Habs) as Hl.
      pose proof (initial_slashes_abs f Habs) as Hs.
      cbv zeta.
      replace (Nat.eqb (posixpath.initial_slashes f) 0) with false
        by (destruct Hs as [-> | ->]; reflexivity).
      replace (String.eqb (Str.repeat "/" (posixpath.initial_slashes f)
                             +:+ URL (normpath_comps f)) "") with false
        by (destruct Hs as [-> | ->]; reflexivity).
      rewrite normalized_nonempty
        by (destruct Hs as [-> | ->]; discriminate).
      now apply normpath_idem_abs.
    + destruct (normpath_rel f Hf Habs) as (k & rest & _ & Hrest & ->).
      destruct (List.repeat ".." k ++ rest) as [|c tl] eqn:Hl; [reflexivity|].
      destruct (URL_head c tl (shape_head k rest c tl Hl Hrest)) as (a & x & Hu & _).
      rewrite normalized_nonempty by (rewrite Hu; discriminate).
      now apply (normpath_idem_rel k rest).
Qed.

(** X1: [safe_join] returns [None] exactly when some segment fails one of the
    tests on its normal form; a path it returns is [posixpath.join] of the
    directory and the normalised segments. *)
Theorem safe_join_None_iff (os : OsPath) (directory : string) (pathnames : list string) :
  (safe_join os directory pathnames = None <->
   exists f, In f pathnames /\ rejected os (normalized f) = true)
  /\ (forall p, safe_join os directory pathnames = Some p ->
                p = posixpath.join directory (List.map normalized pathnames)).
Proof.
  rewrite safe_join_eq. split.
  - destruct (existsb _ pathnames) eqn:Hex.
    + split; [intros _|reflexivity].
      apply List.existsb_exists in Hex as [f [Hin Hr]]. now exists f.
    + split; [discriminate|]. intros [f [Hin Hr]].
      assert (existsb (fun f => rejected os (normalized f)) pathnames = true);
        [|congruence].
      apply List.existsb_exists. now exists f.
  - intros p. destruct (existsb _ pathnames); [discriminate|]. congruence.
Qed.

(** X5: A non-empty path and its normal form are both absolute or both
    relative. *)
Theorem normpath_keeps_kind (p : string) :
  p <> "" -> posixpath.isabs (posixpath.normpath p) = posixpath.isabs p.
Proof.
  intros Hne. rewrite <- (normalized_nonempty p Hne). apply normalized_isabs.
Qed.

Lemma normpath_keeps_kind_witness :
  posixpath.isabs (posixpath.normpath "a/../../x") = false
  /\ posixpath.isabs (posixpath.normpath "//a/../b") = true.
Proof.
  split.
  - rewrite (normpath_keeps_kind "a/../../x"); [reflexivity|discriminate].
  - rewrite (normpath_keeps_kind "//a/../b"); [reflexivity|discriminate].
Defined.

(** X4: Normalising is idempotent, so [safe_join] answers the same on segments
    that were normalised before. *)
Theorem safe_join_normalized (os : OsPath) (directory : string)
  (pathnames : list string) :
  safe_join os directory (List.map normalized pathnames)
  = safe_join os directory pathnames.
Proof.
  rewrite !safe_join_eq.
  assert (Hex : existsb (fun f => rejected os (normalized f))
                  (List.map normalized pathnames)
                = existsb (fun f => rejected os (normalized f)) pathnames).
  { induction pathnames as [|f l IH]; [reflexivity|].
    cbn [List.map existsb]. now rewrite normalized_idempotent, IH. }
  assert (Hmap : List.map normalized (List.map normalized pathnames)
                 = List.map normalized pathnames).
  { clear Hex. induction pathnames as [|f l IH]; [reflexivity|].
    cbn [List.map]. now rewrite normalized_idempotent, IH. }
  now rewrite Hex, Hmap.
Qed.

Lemma safe_join_None_iff_witness :
  safe_join posix "/srv/books" ["overview"; "x/../../y"] = None
  /\ posixpath.join "/srv/books" (List.map normalized ["overview"; "a/./b"])
     = "/srv/books/overview/a/b".
Proof.
  split.
  - apply (proj1 (safe_join_None_iff posix "/srv/books" ["overview"; "x/../../y"])).
    exists "x/../../y". split; [simpl; tauto|reflexivity].
  - symmetry.
    apply (proj2 (safe_join_None_iff posix "/srv/books" ["overview"; "a/./b"])).
    reflexivity.
Defined.

(** ** Static assets, as a whole *)

(** X8: For a course in the store and a path [safe_join] accepts, the handler
    hands back a [FileResponse] for exactly that path when
    [os.path.exists] holds for it, and raises an [HTTPException] with
    status 404 when it does not; nothing is written. *)
Theorem static_asset_found_or_404 (env : Services) (course kind filepath p : string)
  (row : CourseRow) (w : World) :
  fetch_course env course = Some row ->
  safe_join posix (book_path (settings env))
    [base_course row; "build"; base_course row; kind; filepath] = Some p ->
  let r := return_static_asset env course kind filepath w in
  (path_exists env p = true -> r = (Ok (FileResponse p), w))
  /\ (path_exists env p = false ->
      r.2 = w
      /\ (exists d, r.1 = Raise (HTTPException 404 d))
      /\ status_of r.1 response_status = 404%Z).
Proof.
  intros Hc Hj r. subst r.
  rewrite (return_static_asset_resolved env course kind filepath p row w Hc Hj).
  split; intros ->; [reflexivity|].
  split; [reflexivity|]. split; [now exists None|reflexivity].
Qed.

Lemma static_asset_found_or_404_witness :
  get_image Demo.env "overview" "icons/../logo.png" Demo.w0
  = (Ok (FileResponse "/srv/books/overview/build/overview/_images/logo.png"), Demo.w0)
  /\ status_of (get_image Demo.env "overview" "nothing.png" Demo.w0).1 response_status
     = 404%Z.
Proof.
  split.
  - apply (proj1 (static_asset_found_or_404 Demo.env "overview" "_images"
                    "icons/../logo.png"
                    "/srv/books/overview/build/overview/_images/logo.png"
                    Demo.overview Demo.w0 eq_refl eq_refl)).
    reflexivity.
  - apply (proj2 (static_asset_found_or_404 Demo.env "overview" "_images" "nothing.png"
                    "/srv/books/overview/build/overview/_images/nothing.png"
                    Demo.overview Demo.w0 eq_refl eq_refl)).
    reflexivity.
Defined.

(** X10: The static routes never write, and their outcome is one of four:
    [AttributeError] exactly when the course is not in the store,
    [TypeError] exactly when [safe_join] rejects the path of a course that
    is, a [FileResponse] for a path exactly when [safe_join] resolves to it
    and [os.path.exists] holds, an [HTTPException] with status 404 exactly
    when the resolved path does not exist. *)
Theorem return_static_asset_reads_only (env : Services)
  (course kind filepath : string) (w : World) :
  let r := return_static_asset env course kind filepath w in
  let target := fun row : CourseRow =>
    safe_join posix (book_path (settings env))
      [base_course row; "build"; base_course row; kind; filepath] in
  r.2 = w
  /\ (r.1 = Raise AttributeError <-> fetch_course env course = None)
  /\ (r.1 = Raise TypeError
      <-> exists row, fetch_course env course = Some row /\ target row = None)
  /\ (forall p, r.1 = Ok (FileResponse p)
                <-> exists row, fetch_course env course = Some row
                                /\ target row = Some p /\ path_exists env p = true)
  /\ ((exists d, r.1 = Raise (HTTPException 404 d))
      <-> exists row p, fetch_course env course = Some row
                        /\ target row = Some p /\ path_exists env p = false)
  /\ (r.1 = Raise AttributeError \/ r.1 = Raise TypeError
      \/ (exists p, r.1 = Ok (FileResponse p))
      \/ exists d, r.1 = Raise (HTTPException 404 d)).
Proof.
  cbv zeta. unfold return_static_asset.
  destruct (fetch_course env course) as [row|] eqn:Hc.
  - destruct (safe_join posix _ _) as [p|] eqn:Hj.
    + unfold bind, os_path_exists, ret, raise.
      destruct (path_exists env p) eqn:Hex; cbn [fst snd].
      * split; [reflexivity|]. split; [split; discriminate|].
        split; [split; [discriminate|intros (row' & Hr & Hn); congruence]|].
        split.
        { intros p'. split.
          - intros H. injection H as <-. now exists row.
          - intros (row' & Hr & Hp & _). congruence. }
        split.
        { split; [intros [d Hd]; discriminate|].
          intros (row' & p' & Hr & Hp & He). congruence. }
        right. right. left. now exists p.
      * split; [reflexivity|]. split; [split; discriminate|].
        split; [split; [discriminate|intros (row' & Hr & Hn); congruence]|].
        split.
        { intros p'. split; [discriminate|].
          intros (row' & Hr & Hp & He). congruence. }
        split.
        { split; [intros _; now exists row, p|intros _; now exists None]. }
        right. right. right. now exists None.
    + cbn [fst snd]. split; [reflexivity|]. split; [split; discriminate|].
      split; [split; [intros _; now exists row|reflexivity]|].
      split.
      { intros p'. split; [discriminate|].
        intros (row' & Hr & Hp & He). congruence. }
      split.
      { split; [intros [d Hd]; discriminate|].
        intros (row' & p' & Hr & Hp & He). congruence. }
      right. now left.
  - cbn [fst snd]. split; [reflexivity|]. split; [split; reflexivity|].
    split; [split; [discriminate|intros (row' & Hr & _); discriminate]|].
    split.
    { intros p'. split; [discriminate|intros (row' & Hr & _); discriminate]. }
    split.
    { split; [intros [d Hd]; discriminate|intros (row' & p' & Hr & _); discriminate]. }
    now left.
Qed.

(** ** Pages, as a whole *)

Section ServePageCases.

Variable env : Services.
Variables (request : Request) (course_name pagepath : string) (w : World).

(** [serve_page], step by step. *)
Lemma serve_page_cases :
  serve_page env request course_name pagepath w =
  match fetch_course env course_name with
  | None =>
      (Raise (HTTPException 404 (Some ("Course " +:+ course_name +:+ " not found"))), w)
  | Some row =>
      if login_required row && negb (bool_decide (is_Some (state_user request)))
      then (Ok (RedirectResponse (login_url (settings env))), w)
      else if match state_user request with
              | Some u => negb (String.eqb (user_course_name u) course_name)
              | None => false
              end
      then (Ok (RedirectResponse "/runestone/default/courses"), w)
      else
        match safe_join posix (book_path (settings env))
                [base_course row; "published"; base_course row] with
        | None => (Raise TypeError, w)
        | Some dir =>
            if useinfo_schema_ok env
                 (view_event request course_name pagepath (clock w))
            then
              let w1 := log_useinfo w
                          (view_event request course_name pagepath (clock w)) in
              let t := page_templates env row dir in
              match page_context env request course_name row
                      (page_activity_info env request course_name pagepath row)
                      (page_is_instructor env request)
                      (with_compare_default
                         (fetch_all_course_attributes env (id row))) with
              | Raise e => (Raise e, w1)
              | Ok context =>
                  if template_exists env dir pagepath
                  then (Ok (TemplateResponse t pagepath context),
                        log_render w1 t pagepath context)
                  else (Raise (page_not_found pagepath row), w1)
              end
            else (Raise ValidationError, w)
        end
  end.
Proof.
  destruct (fetch_course env course_name) as [row|] eqn:Hc;
    [|now apply serve_page_no_course].
  destruct (login_required row && negb (bool_decide (is_Some (state_user request))))
    eqn:Hlogin.
  { unfold serve_page. now rewrite Hc, Hlogin. }
  destruct (match state_user request with
            | Some u => negb (String.eqb (user_course_name u) course_name)
            | None => false
            end) eqn:Hsame.
  { unfold serve_page. now rewrite Hc, Hlogin, Hsame. }
  destruct (safe_join posix (book_path (settings env))
              [base_course row; "published"; base_course row]) as [dir|] eqn:Hdir.
  2: { unfold serve_page. now rewrite Hc, Hlogin, Hsame, Hdir. }
  destruct (useinfo_schema_ok env (view_event request course_name pagepath (clock w)))
    eqn:Hschema.
  - apply serve_page_granted; try assumption.
    unfold access_granted. rewrite Hlogin. simpl.
    destruct (state_user request); [|reflexivity].
    now apply negb_false_iff in Hsame.
  - unfold serve_page. rewrite Hc, Hlogin, Hsame, Hdir.
    unfold Jinja2Templates. unfold bind at 1, ret at 1.
    unfold bind at 1, utcnow.
    rewrite UseinfoValidation_keywords.
    change {| ui_timestamp := clock w;
              ui_sid := match state_user request with
                        | Some u => username u
                        | None => "Anonymous"
                        end;
              ui_event := "page"; ui_act := "view";
              ui_div_id := pagepath; ui_course_id := course_name |}
      with (view_event request course_name pagepath (clock w)).
    unfold bind at 1, validated. now rewrite Hschema.
Qed.

End ServePageCases.

(** X11: What [serve_page] writes: a template response comes with exactly one
    view event and one render of the requested page, a redirect with
    nothing; an error leaves the stores as they were or with the one view
    event; the answer store is never touched and a file is never
    returned. *)
Theorem serve_page_effects (env : Services) (request : Request)
  (course_name pagepath : string) (w : World) :
  let r := serve_page env request course_name pagepath w in
  let ev := view_event request course_name pagepath (clock w) in
  match r.1 with
  | Ok (TemplateResponse t name context) =>
      name = pagepath /\ r.2 = log_render (log_useinfo w ev) t name context
  | Ok (RedirectResponse _) => r.2 = w
  | Ok (FileResponse _) => False
  | Raise _ => r.2 = w \/ r.2 = log_useinfo w ev
  end.
Proof.
  cbv zeta. rewrite serve_page_cases.
  destruct (fetch_course env course_name) as [row|]; [|now left].
  destruct (login_required row && _); [reflexivity|].
  destruct (match state_user request with Some _ => _ | None => _ end);
    [reflexivity|].
  destruct (safe_join posix _ _) as [dir|]; [|now left].
  destruct (useinfo_schema_ok env _); [|now left].
  cbv zeta. destruct (page_context _ _ _ _ _ _ _) as [context|e]; [|now right].
  destruct (template_exists env dir pagepath); [now split|now right].
Qed.

(** X12: A signed-in user whose current course is another one is sent to the
    course selection; nothing is stored or rendered. *)
Theorem serve_page_other_course (env : Services) (request : Request)
  (course_name pagepath : string) (row : CourseRow) (u : RequestUser) (w : World) :
  state_user request = Some u ->
  fetch_course env course_name = Some row ->
  user_course_name u <> course_name ->
  serve_page env request course_name pagepath w =
  (Ok (RedirectResponse "/runestone/default/courses"), w).
Proof.
  intros Hu Hc Hne. rewrite serve_page_cases, Hc, Hu.
  replace (bool_decide (is_Some (Some u))) with true by reflexivity.
  rewrite andb_false_r.
  apply String.eqb_neq in Hne. now rewrite Hne.
Qed.

Lemma serve_page_other_course_witness :
  serve_page Demo.env Demo.as_alice "cs101" "index.html" Demo.w0 =
  (Ok (RedirectResponse "/runestone/default/courses"), Demo.w0).
Proof.
  apply (serve_page_other_course Demo.env Demo.as_alice "cs101" "index.html"
           Demo.cs101 Demo.alice Demo.w0); [reflexivity|reflexivity|discriminate].
Defined.

(** X13: A page of a course that is not in the store is answered with 404
    naming the course, signed in or not, and nothing is stored. *)
Theorem serve_page_unknown_course (env : Services) (request : Request)
  (course_name pagepath : string) (w : World) :
  fetch_course env course_name = None ->
  let r := serve_page env request course_name pagepath w in
  r = (Raise (HTTPException 404 (Some ("Course " +:+ course_name +:+ " not found"))), w)
  /\ status_of r.1 response_status = 404%Z.
Proof.
  intros Hc r. subst r. rewrite serve_page_cases, Hc. split; reflexivity.
Qed.

Lemma serve_page_unknown_course_witness :
  serve_page Demo.env Demo.as_alice "nosuch" "index.html" Demo.w0
  = (Raise (HTTPException 404 (Some "Course nosuch not found")), Demo.w0).
Proof.
  apply (serve_page_unknown_course Demo.env Demo.as_alice "nosuch" "index.html"
           Demo.w0 eq_refl).
Defined.



(** X15: The delimiters a page is rendered with: those of PreTeXt books, with
    the [URL] helper exposed, exactly when the course's [markup_system]
    attribute is [PreTeXt]; the defaults otherwise, also when the attribute
    is missing. *)
Theorem serve_page_delimiters (env : Services) (request : Request)
  (course_name pagepath : string) (row : CourseRow) (w w' : World)
  (t : Templates) (name : string) (context : gmap string PyVal) :
  fetch_course env course_name = Some row ->
  serve_page env request course_name pagepath w
  = (Ok (TemplateResponse t name context), w') ->
  let delimiters := (variable_start_string t, variable_end_string t,
                     comment_start_string t, comment_end_string t) in
  match fetch_all_course_attributes env (id row) !! "markup_system" with
  | Some m =>
      if String.eqb m "PreTeXt"
      then delimiters = ("~._", "_.~", "@@#", "#@@") /\ In "URL" (globals t)
      else delimiters = ("{{", "}}", "{#", "#}") /\ ~ In "URL" (globals t)
  | None => delimiters = ("{{", "}}", "{#", "#}") /\ ~ In "URL" (globals t)
  end.
Proof.
  intros Hc. rewrite serve_page_cases, Hc.
  destruct (login_required row && _); [discriminate|].
  destruct (match state_user request with Some _ => _ | None => _ end);
    [discriminate|].
  destruct (safe_join posix _ _) as [dir|]; [|discriminate].
  destruct (useinfo_schema_ok env _); [|discriminate].
  cbv zeta. destruct (page_context _ _ _ _ _ _ _) as [ctx|e]; [|discriminate].
  destruct (template_exists env dir pagepath); [|discriminate].
  intros H. injection H as <- _ _ _. unfold page_templates.
  destruct (fetch_all_course_attributes env (id row) !! "markup_system") as [m|];
    simpl default.
  - destruct (String.eqb m "PreTeXt"); (split; [reflexivity|]); simpl;
      [tauto|intros [H|[]]; discriminate H].
  - split; [reflexivity|]. simpl. intros [H|[]]. discriminate H.
Qed.

Lemma serve_page_delimiters_witness :
  exists t context w',
    serve_page Demo2.env Demo2.as_bob "cs101" "index.html" Demo.w0
    = (Ok (TemplateResponse t "index.html" context), w')
    /\ variable_start_string t = "~._"
    /\ In "URL" (globals t).
Proof.
  destruct (serve_page_renders Demo2.env Demo2.as_bob "cs101" "index.html"
              Demo.cs101 "/srv/books/thinkcspy/published/thinkcspy" Demo.w0
              eq_refl eq_refl eq_refl eq_refl) as (context & Hrun).
  - intros k Hk. simpl in Hk.
    repeat (destruct Hk as [<-|Hk]; [vm_compute; reflexivity|]). destruct Hk.
  - reflexivity.
  - eexists _, context, _. split; [exact Hrun|].
    pose proof (serve_page_delimiters Demo2.env Demo2.as_bob "cs101" "index.html"
                  Demo.cs101 Demo.w0 _ _ "index.html" context eq_refl Hrun) as Hd.
    cbv zeta in Hd.
    change (fetch_all_course_attributes Demo2.env (id Demo.cs101) !! "markup_system")
      with (Some "PreTeXt") in Hd.
    cbv beta iota in Hd.
    change (String.eqb "PreTeXt" "PreTeXt") with true in Hd. cbv iota in Hd.
    destruct Hd as [Hdel Hurl]. split; [congruence|exact Hurl].
Defined.

(** X16: A course attribute named like a fixed context key makes the page fail
    with an uncaught [TypeError] after its view event has been stored;
    nothing is rendered. *)
Theorem serve_page_attribute_collision (env : Services) (request : Request)
  (course_name pagepath : string) (row : CourseRow) (dir k : string) (w : World) :
  fetch_course env course_name = Some row ->
  access_granted request course_name row = true ->
  safe_join posix (book_path (settings env))
    [base_course row; "published"; base_course row] = Some dir ->
  useinfo_schema_ok env (view_event request course_name pagepath (clock w)) = true ->
  In k context_keys ->
  is_Some (fetch_all_course_attributes env (id row) !! k) ->
  serve_page env request course_name pagepath w =
  (Raise TypeError,
   log_useinfo w (view_event request course_name pagepath (clock w))).
Proof.
  intros Hc Ha Hd Hs Hk Hsome.
  rewrite (serve_page_granted env request course_name pagepath row dir w Hc Ha Hd Hs).
  cbv zeta.
  now rewrite (page_context_collision env request course_name row _ _ _ k Hk Hsome).
Qed.

Lemma serve_page_attribute_collision_witness :
  serve_page Demo.env Demo.anonymous "shadow" "index.html" Demo.w0 =
  (Raise TypeError,
   log_useinfo Demo.w0 (view_event Demo.anonymous "shadow" "index.html" (clock Demo.w0))).
Proof.
  apply (serve_page_attribute_collision Demo.env Demo.anonymous "shadow" "index.html"
           Demo.shadow "/srv/books/overview/published/overview" "user_id" Demo.w0);
    try reflexivity.
  - simpl. tauto.
  - vm_compute. eexists. reflexivity.
Defined.

(** X17: The keys of the context: the fixed ones, the course's attributes and
    [enable_compare_me], nothing else. *)
Theorem page_context_keys (env : Services) (request : Request)
  (course_name : string) (row : CourseRow) (activity_info : JSON) (instr : bool)
  (attrs : gmap string string) (context : gmap string PyVal) (k : string) :
  page_context env request course_name row activity_info instr
    (with_compare_default attrs) = Ok context ->
  is_Some (context !! k) <->
  In k context_keys \/ is_Some (attrs !! k) \/ k = "enable_compare_me".
Proof.
  intros Hctx.
  assert (Hdis : forall k, In k context_keys -> attrs !! k = None).
  { intros k0 Hk0. destruct (attrs !! k0) eqn:Hv; [|reflexivity].
    rewrite (page_context_collision env request course_name row activity_info
               instr attrs k0 Hk0) in Hctx; [discriminate|rewrite Hv; now eexists]. }
  rewrite (page_context_disjoint env request course_name row activity_info instr
             attrs Hdis) in Hctx.
  injection Hctx as <-.
  rewrite lookup_union_is_Some, lookup_fmap, fmap_is_Some.
  assert (Hkw : is_Some ((list_to_map
                            (context_keywords env request course_name row
                               activity_info instr) : gmap string PyVal) !! k)
                <-> In k context_keys).
  { split.
    - intros [v Hv]. apply elem_of_list_to_map_2 in Hv.
      apply list_elem_of_In in Hv.
      change context_keys
        with (List.map fst (context_keywords env request course_name row
                              activity_info instr)).
      apply List.in_map_iff. now exists (k, v).
    - intros Hin.
      change context_keys
        with (List.map fst (context_keywords env request course_name row
                              activity_info instr)) in Hin.
      apply List.in_map_iff in Hin as [[k' v] [Hk Hin]]. simpl in Hk. subst k'.
      exists v. now apply keywords_lookup. }
  rewrite Hkw.
  assert (Hattr : is_Some (with_compare_default attrs !! k)
                  <-> is_Some (attrs !! k) \/ k = "enable_compare_me").
  { unfold with_compare_default.
    destruct (attrs !! "enable_compare_me") eqn:He.
    - split; [tauto|]. intros [H | ->]; [exact H|rewrite He; now eexists].
    - destruct (decide (k = "enable_compare_me")) as [-> | Hne].
      + rewrite lookup_insert_eq. split; [tauto|]. intros _. now eexists.
      + rewrite lookup_insert_ne by congruence. split; [tauto|].
        intros [H | H]; [exact H|congruence]. }
  rewrite Hattr. tauto.
Qed.

Lemma page_context_keys_witness :
  exists context,
    page_context Demo.env Demo.anonymous "cs101" Demo.cs101 (JObj []) false
      (with_compare_default (Demo.attributes 2)) = Ok context
    /\ is_Some (context !! "markup_system")
    /\ ~ is_Some (context !! "password").
Proof.
  pose proof (page_context_disjoint Demo.env Demo.anonymous "cs101" Demo.cs101
                (JObj []) false (Demo.attributes 2)) as Hb.
  match type of Hb with _ -> _ = Ok ?c => set (context := c) in Hb end.
  assert (Hkeys : forall k, In k context_keys -> Demo.attributes 2 !! k = None).
  { intros k Hk. simpl in Hk.
    repeat (destruct Hk as [<-|Hk]; [vm_compute; reflexivity|]). destruct Hk. }
  specialize (Hb Hkeys).
  exists context. split; [exact Hb|]. split.
  - apply (page_context_keys Demo.env Demo.anonymous "cs101" Demo.cs101 (JObj [])
               false (Demo.attributes 2) context "markup_system" Hb).
    right. left. vm_compute. eexists. reflexivity.
  - intros Hs.
    apply (page_context_keys Demo.env Demo.anonymous "cs101" Demo.cs101 (JObj [])
             false (Demo.attributes 2) context "password" Hb) in Hs.
    destruct Hs as [Hs | [Hs | Hs]].
    + simpl in Hs. repeat (destruct Hs as [Hs|Hs]; [discriminate Hs|]). exact Hs.
    + vm_compute in Hs. destruct Hs as [v Hv]. discriminate Hv.
    + discriminate Hs.
Defined.

(** ** The event logger, as a whole *)

(** X19: A payload the event schema refuses makes the call end in the
    validation error before anything is written: the stores are as they
    were, whatever the kind of the event. *)
Theorem log_book_event_refused (env : Services) (entry : LogItemIncoming)
  (request : Request) (w : World) :
  useinfo_schema_ok env (logged_event entry request (clock w)) = false ->
  log_book_event env entry request w = (Raise ValidationError, w).
Proof.
  intros Hs. rewrite log_book_event_run. cbv zeta. now rewrite Hs.
Qed.

Lemma log_book_event_refused_witness :
  log_book_event Demo.env Demo2.long_entry Demo.anonymous Demo.w0
  = (Raise ValidationError, Demo.w0).
Proof.
  apply (log_book_event_refused Demo.env Demo2.long_entry Demo.anonymous Demo.w0).
  vm_compute. reflexivity.
Defined.

(** X20: The answer record is built after the event has been stored: when the
    answer table of the kind refuses the payload, or the kind has no
    validator, the call ends in an error with the event row stored and no
    answer row. *)
Theorem log_book_event_answer_refused (env : Services) (entry : LogItemIncoming)
  (request : Request) (w : World) (table_name : string) :
  useinfo_schema_ok env (logged_event entry request (clock w)) = true ->
  EVENT2TABLE env !! li_event entry = Some table_name ->
  let r := log_book_event env entry request w in
  let w1 := log_useinfo w (logged_event entry request (clock w)) in
  (forall from_orm,
      validation_tables env !! table_name = Some from_orm ->
      from_orm (stamped entry request (clock w)) = None ->
      r = (Raise ValidationError, w1))
  /\ (validation_tables env !! table_name = None -> r = (Raise KeyError, w1)).
Proof.
  intros Hs Ht r w1. subst r w1. rewrite log_book_event_run. cbv zeta.
  rewrite Hs, Ht. split.
  - intros from_orm -> ->. reflexivity.
  - intros ->. reflexivity.
Qed.

Lemma log_book_event_answer_refused_witness :
  let r := log_book_event Demo.env Demo2.bare_mchoice Demo.anonymous Demo.w0 in
  r.1 = Raise ValidationError
  /\ List.length (useinfo r.2) = 1
  /\ answers r.2 = [].
Proof.
  cbv zeta.
  rewrite (proj1 (log_book_event_answer_refused Demo.env Demo2.bare_mchoice
                    Demo.anonymous Demo.w0 "mchoice_answers" eq_refl eq_refl)
             Demo.mchoice_from_orm eq_refl eq_refl).
  repeat split.
Defined.

(** X21: The reply: [OK] with the identifier when the store yielded a non-zero
    one, [FAIL] when it yielded none or zero. *)
Theorem log_book_event_reply (env : Services) (entry : LogItemIncoming)
  (request : Request) (w : World) (st : LogStatus) :
  (log_book_event env entry request w).1 = Ok st ->
  match useinfo_idx env (useinfo w) (logged_event entry request (clock w)) with
  | Some i => if Z.eqb i 0 then st = StatusFAIL else st = StatusOK i
  | None => st = StatusFAIL
  end.
Proof.
  rewrite log_book_event_run. cbv zeta.
  assert (Hst : Ok (log_status (useinfo_idx env (useinfo w)
                                  (logged_event entry request (clock w)))) = Ok st ->
                match useinfo_idx env (useinfo w)
                        (logged_event entry request (clock w)) with
                | Some i => if Z.eqb i 0 then st = StatusFAIL else st = StatusOK i
                | None => st = StatusFAIL
                end).
  { intros H. injection H as <-.
    destruct (useinfo_idx env _ _) as [i|]; [|reflexivity].
    unfold log_status, truthy_idx. now destruct (Z.eqb i 0). }
  destruct (useinfo_schema_ok env _); [|discriminate].
  destruct (EVENT2TABLE env !! li_event entry) as [table_name|]; [|exact Hst].
  destruct (validation_tables env !! table_name) as [from_orm|]; [|discriminate].
  destruct (from_orm _); [exact Hst|discriminate].
Qed.

Lemma log_book_event_reply_witness :
  (exists st, (log_book_event Demo.env Demo.click_entry Demo.anonymous Demo.w0).1
              = Ok st /\ st = StatusOK 1)
  /\ (exists st, (log_book_event Demo2.env Demo.click_entry Demo.anonymous Demo.w0).1
                 = Ok st /\ st = StatusFAIL).
Proof.
  split.
  - exists (StatusOK 1). split; [reflexivity|].
    exact (log_book_event_reply Demo.env Demo.click_entry Demo.anonymous Demo.w0
             (StatusOK 1) eq_refl).
  - exists StatusFAIL. split; [reflexivity|].
    exact (log_book_event_reply Demo2.env Demo.click_entry Demo.anonymous Demo.w0
             StatusFAIL eq_refl).
Defined.

(** X22: The logger only appends: the clock and the render log are untouched,
    rows already stored stay, at most one event row and one answer row are
    added, and an answer row only together with its event row. *)
Theorem log_book_event_appends (env : Services) (entry : LogItemIncoming)
  (request : Request) (w : World) :
  let w' := (log_book_event env entry request w).2 in
  clock w' = clock w
  /\ rendered w' = rendered w
  /\ exists events rows,
       useinfo w' = useinfo w ++ events
       /\ answers w' = answers w ++ rows
       /\ (List.length rows <= List.length events <= 1)%nat.
Proof.
  cbv zeta. rewrite log_book_event_run. cbv zeta.
  destruct (useinfo_schema_ok env _).
  2: { repeat split. exists [], []. rewrite !app_nil_r. simpl. auto. }
  destruct (EVENT2TABLE env !! li_event entry) as [table_name|].
  2: { repeat split. eexists [_], []. rewrite app_nil_r. simpl. auto. }
  destruct (validation_tables env !! table_name) as [from_orm|].
  2: { repeat split. eexists [_], []. rewrite app_nil_r. simpl. auto. }
  destruct (from_orm _).
  - repeat split. eexists [_], [_]. simpl. auto.
  - repeat split. eexists [_], []. rewrite app_nil_r. simpl. auto.
Qed.

(** ** The timezone cookie, as a whole *)

(** X23: An empty cookie is treated like no cookie: the decoder is not asked. *)
Theorem set_tz_offset_empty_cookie (env : Services) (response : list (string * string))
  (timezoneoffset : Z) :
  set_tz_offset env response timezoneoffset (Some "")
  = set_tz_offset env response timezoneoffset None
  /\ set_tz_offset env response timezoneoffset (Some "")
     = Ok ("done",
           response ++ [("RS_info",
                         json_dumps env (JObj [("tz_offset", JInt timezoneoffset)]))]).
Proof. split; reflexivity. Qed.

(** X24: A cookie that cannot be decoded, or that decodes to something other
    than an object, makes the handler raise; no cookie is written. *)
Theorem set_tz_offset_bad_cookie (env : Services) (response : list (string * string))
  (timezoneoffset : Z) (s : string) :
  s <> "" ->
  (json_loads env s = None ->
   set_tz_offset env response timezoneoffset (Some s) = Raise JSONDecodeError)
  /\ (forall v, json_loads env s = Some v ->
                (forall d, v <> JObj d) ->
                set_tz_offset env response timezoneoffset (Some s) = Raise TypeError).
Proof.
  intros Hne. apply String.eqb_neq in Hne.
  unfold set_tz_offset, truthy_str. rewrite Hne. simpl negb. cbv iota.
  split.
  - now intros ->.
  - intros v -> Hv. destruct v; try reflexivity. now destruct (Hv members).
Qed.

Lemma set_tz_offset_bad_cookie_witness :
  set_tz_offset Demo.env [] 5 (Some "tz=5") = Raise JSONDecodeError.
Proof.
  apply (proj1 (set_tz_offset_bad_cookie Demo.env [] 5 "tz=5" ltac:(discriminate))).
  reflexivity.
Defined.



Lemma dict_set_twice (d : list (string * JSON)) (k : string) (v1 v2 : JSON) :
  dict_set (dict_set d k v1) k v2 = dict_set d k v2.
Proof.
  induction d as [|[k' v'] d IH]; simpl.
  - now rewrite String.eqb_refl.
  - destruct (String.eqb k' k) eqn:Hk; simpl; rewrite Hk; [reflexivity|].
    now rewrite IH.
Qed.

(** X26: Setting the offset again on the cookie a first call wrote gives the
    cookie a single call with the last offset would have written, provided
    the codec reads back what it wrote. *)
Theorem set_tz_offset_twice (env : Services) (response : list (string * string))
  (first second : Z) (s : string) (d : list (string * JSON)) :
  s <> "" ->
  json_loads env s = Some (JObj d) ->
  let cookie := json_dumps env (JObj (dict_set d "tz_offset" (JInt first))) in
  cookie <> "" ->
  json_loads env cookie = Some (JObj (dict_set d "tz_offset" (JInt first))) ->
  set_tz_offset env response second (Some cookie)
  = set_tz_offset env response second (Some s).
Proof.
  intros Hne Hload cookie Hne' Hload'.
  apply String.eqb_neq in Hne, Hne'.
  unfold set_tz_offset, truthy_str. rewrite Hne, Hne', Hload, Hload'.
  simpl. now rewrite dict_set_twice.
Qed.

Lemma set_tz_offset_twice_witness :
  set_tz_offset Demo2.env [] (-6)
    (Some (json_dumps Demo2.env (JObj Demo2.prefs1)))
  = set_tz_offset Demo2.env [] (-6) (Some Demo.prefs_text).
Proof.
  apply (set_tz_offset_twice Demo2.env [] Demo2.first_offset (-6) Demo.prefs_text
           Demo.prefs).
  - discriminate.
  - reflexivity.
  - vm_compute. discriminate.
  - vm_compute. reflexivity.
Defined.

(** ** Chapter and subchapter of a page path *)

Lemma length_append (x y : string) :
  String.length (x +:+ y) = String.length x + String.length y.
Proof. induction x as [|a x IH]; simpl; [reflexivity|now rewrite IH]. Qed.

Lemma append_assoc (x y z : string) : (x +:+ y) +:+ z = x +:+ (y +:+ z).
Proof.
  induction x as [|a x IH]; [reflexivity|].
  change (String a ((x +:+ y) +:+ z) = String a (x +:+ (y +:+ z))). now rewrite IH.
Qed.

Lemma append_cons (a : ascii) (x y : string) : String a x +:+ y = String a (x +:+ y).
Proof. reflexivity. Qed.

Lemma append_nil (y : string) : "" +:+ y = y.
Proof. reflexivity. Qed.

Lemma append_empty_r (x : string) : x +:+ "" = x.
Proof. induction x as [|a x IH]; [reflexivity|]. now rewrite append_cons, IH. Qed.

Lemma append_eq_nil (x y : string) : x +:+ y = "" -> x = "" /\ y = "".
Proof.
  destruct x; [rewrite append_nil; auto|]. rewrite append_cons. discriminate.
Qed.

Lemma substring_all (y : string) : substring 0 (String.length y) y = y.
Proof. induction y as [|a y IH]; simpl; [reflexivity|now rewrite IH]. Qed.

Lemma substring_head (x y : string) : substring 0 (String.length x) (x +:+ y) = x.
Proof.
  induction x as [|a x IH]; rewrite ?append_nil, ?append_cons; simpl; [now destruct y|now rewrite IH].
Qed.

Lemma substring_skip (x y : string) (m : nat) :
  substring (String.length x) m (x +:+ y) = substring 0 m y.
Proof. induction x as [|a x IH]; rewrite ?append_nil, ?append_cons; simpl; [reflexivity|exact IH]. Qed.

Lemma take_append (x y : string) : Str.take (String.length x) (x +:+ y) = x.
Proof. apply substring_head. Qed.

Lemma drop_append (x y : string) : Str.drop (String.length x) (x +:+ y) = y.
Proof.
  unfold Str.drop. rewrite substring_skip, length_append.
  replace (String.length x + String.length y - String.length x) with (String.length y)
    by lia.
  apply substring_all.
Qed.

Lemma sep_split (c : ascii) (x y : string) :
  x +:+ String c y = (x +:+ String c "") +:+ y.
Proof. now rewrite append_assoc. Qed.

Lemma length_sep (c : ascii) (x : string) :
  String.length (x +:+ String c "") = S (String.length x).
Proof. rewrite length_append. simpl. lia. Qed.

Lemma take_sep (c : ascii) (x y : string) :
  Str.take (S (String.length x)) (x +:+ String c y) = x +:+ String c "".
Proof. rewrite (sep_split c x y), <- (length_sep c x). apply take_append. Qed.

Lemma drop_sep (c : ascii) (x y : string) :
  Str.drop (S (String.length x)) (x +:+ String c y) = y.
Proof. rewrite (sep_split c x y), <- (length_sep c x). apply drop_append. Qed.

Lemma rfind_succ_none (c : ascii) (y : string) :
  Str.contains (String c "") y = false -> Str.rfind_succ c y = 0.
Proof.
  induction y as [|a y IH]; intros H; [reflexivity|].
  rewrite contains_char_cons in H. apply orb_false_iff in H as [Ha Hy].
  simpl. now rewrite (IH Hy), Ha.
Qed.

Lemma rfind_succ_append (c : ascii) (x y : string) :
  Str.rfind_succ c (x +:+ y) =
  match Str.rfind_succ c y with
  | O => Str.rfind_succ c x
  | S k => String.length x + S k
  end.
Proof.
  induction x as [|a x IH]; rewrite ?append_nil, ?append_cons; simpl.
  - now destruct (Str.rfind_succ c y).
  - rewrite IH. destruct (Str.rfind_succ c y) as [|k]; [reflexivity|].
    rewrite !Nat.add_succ_r. reflexivity.
Qed.

(** The last separator of [x/name] stands right after [x]. *)
Lemma rfind_succ_last (c : ascii) (x name : string) :
  Str.contains (String c "") name = false ->
  Str.rfind_succ c (x +:+ String c name) = S (String.length x).
Proof.
  intros H. rewrite rfind_succ_append. simpl.
  rewrite (rfind_succ_none c name H), Ascii.eqb_refl. lia.
Qed.

Lemma contains_char_append (c : ascii) (x y : string) :
  Str.contains (String c "") (x +:+ y)
  = Str.contains (String c "") x || Str.contains (String c "") y.
Proof.
  induction x as [|a x IH].
  - simpl. now destruct y.
  - change (String a x +:+ y) with (String a (x +:+ y)).
    rewrite !contains_char_cons, IH. now rewrite orb_assoc.
Qed.

Lemma rstrip_keep (c : ascii) (d : string) :
  Str.contains (String c "") d = false -> Str.rstrip c d = d.
Proof.
  induction d as [|a d IH]; intros H; [reflexivity|].
  rewrite contains_char_cons in H. apply orb_false_iff in H as [Ha Hd].
  simpl. rewrite (IH Hd), Ha. now destruct d.
Qed.

Lemma rstrip_append_keep (c : ascii) (x d : string) :
  d <> "" -> Str.contains (String c "") d = false ->
  Str.rstrip c (x +:+ d) = x +:+ d.
Proof.
  intros Hne Hd. induction x as [|a x IH]; rewrite ?append_nil, ?append_cons; simpl.
  - now apply rstrip_keep.
  - rewrite IH. destruct (x +:+ d) eqn:Hx; [|reflexivity].
    destruct x; [rewrite append_nil in Hx; congruence|].
    rewrite append_cons in Hx. discriminate.
Qed.

Lemma rstrip_sep (c : ascii) (x : string) :
  Str.rstrip c (x +:+ String c "") = Str.rstrip c x.
Proof.
  induction x as [|a x IH]; rewrite ?append_nil, ?append_cons; simpl.
  - now rewrite Ascii.eqb_refl.
  - now rewrite IH.
Qed.

Lemma not_all_sep (q d r : string) (n : nat) :
  d <> "" -> Str.contains "/" d = false ->
  String.eqb (q +:+ d +:+ r) (Str.repeat "/" n) = false.
Proof.
  intros Hne Hd. apply String.eqb_neq.
  revert n; induction q as [|b q IH]; intros n Heq.
  - destruct d as [|a d]; [congruence|].
    change "/" with (String "/" "") in Hd.
    rewrite contains_char_cons in Hd. apply orb_false_iff in Hd as [Ha _].
    destruct n as [|n]; [discriminate|]. simpl in Heq.
    injection Heq as -> _. discriminate.
  - destruct n as [|n]; [discriminate|]. simpl in Heq.
    injection Heq as _ Heq. now apply (IH n).
Qed.

(** [posixpath.split] of [x/name], for [x] ending in a name. *)
Lemma split_dir_name (q d name : string) :
  d <> "" -> Str.contains "/" d = false -> Str.contains "/" name = false ->
  posixpath.split ((q +:+ d) +:+ String "/" name) = (q +:+ d, name).
Proof.
  intros Hne Hd Hname. unfold posixpath.split.
  rewrite (rfind_succ_last "/" (q +:+ d) name Hname), take_sep, drop_sep.
  cbv zeta.
  replace (String.eqb ((q +:+ d) +:+ "/") "") with false
    by (symmetry; apply String.eqb_neq; intros H;
        apply append_eq_nil in H as [_ H]; discriminate H).
  rewrite (append_assoc q d "/"), (not_all_sep q d "/" _ Hne Hd).
  simpl andb. cbv iota.
  rewrite <- (append_assoc q d "/").
  now rewrite rstrip_sep, (rstrip_append_keep "/" q d Hne Hd).
Qed.

(** [posixpath.split] of a path without a slash. *)
Lemma split_name (name : string) :
  Str.contains "/" name = false -> posixpath.split name = ("", name).
Proof.
  intros H. unfold posixpath.split.
  rewrite (rfind_succ_none "/" name H).
  unfold Str.take, Str.drop. rewrite Nat.sub_0_r, substring_all.
  now destruct name.
Qed.

(** [posixpath.split] of a path that ends in [q/d], [q] empty or ending
    in a slash. *)
Lemma split_tail (q d : string) :
  q = "" \/ (exists q', q = q' +:+ "/") ->
  Str.contains "/" d = false ->
  snd (posixpath.split (q +:+ d)) = d.
Proof.
  intros [-> | [q' ->]] Hd.
  - rewrite append_nil. now rewrite (split_name d Hd).
  - rewrite <- (sep_split "/" q' d). unfold posixpath.split.
    rewrite (rfind_succ_last "/" q' d Hd). cbv zeta. simpl snd. apply drop_sep.
Qed.

Lemma has_non_dot_no_sep (stem ext : string) :
  Str.contains "/" stem = false -> Str.contains "/" ext = false ->
  Str.contains "/" (stem +:+ String "." ext) = false.
Proof.
  intros Hs He. change "/" with (String "/" "") in *.
  now rewrite contains_char_append, Hs, contains_char_cons, He.
Qed.

(** [posixpath.splitext] of [x stem.ext], [x] empty or ending in a slash. *)
Lemma splitext_stem (x stem ext : string) :
  x = "" \/ (exists x', x = x' +:+ "/") ->
  Str.contains "/" stem = false -> Str.contains "/" ext = false ->
  Str.contains "." ext = false ->
  posixpath.has_non_dot stem = true ->
  posixpath.splitext (x +:+ stem +:+ String "." ext) = (x +:+ stem, String "." ext).
Proof.
  intros Hx Hs He Hdot Hnd. unfold posixpath.splitext.
  assert (Hsep : Str.rfind_succ "/" (x +:+ stem +:+ String "." ext) = String.length x).
  { destruct Hx as [-> | [x' ->]].
    - rewrite append_nil. rewrite (rfind_succ_none "/"); [reflexivity|].
      now apply has_non_dot_no_sep.
    - rewrite <- (sep_split "/" x' (stem +:+ String "." ext)).
      rewrite rfind_succ_last by now apply has_non_dot_no_sep.
      now rewrite length_sep. }
  assert (Hd : Str.rfind_succ "." (x +:+ stem +:+ String "." ext)
               = S (String.length (x +:+ stem))).
  { rewrite <- append_assoc. now apply rfind_succ_last. }
  rewrite Hsep, Hd. cbv zeta.
  replace (String.length x <? S (String.length (x +:+ stem)))%nat with true
    by (symmetry; apply Nat.ltb_lt; rewrite length_append; lia).
  replace (S (String.length (x +:+ stem)) - 1) with (String.length (x +:+ stem)) by lia.
  assert (Hsub : substring (String.length x)
                   (String.length (x +:+ stem) - String.length x)
                   (x +:+ stem +:+ String "." ext) = stem).
  { rewrite substring_skip, length_append.
    replace (String.length x + String.length stem - String.length x)
      with (String.length stem) by lia.
    apply substring_head. }
  rewrite Hsub, Hnd. simpl andb. cbv iota.
  rewrite <- append_assoc. now rewrite take_append, drop_append.
Qed.

(** X18: The chapter is the name of the directory the page is in, the
    subchapter the file name without its extension; a page at the top has
    the empty chapter. *)
Theorem chapter_and_subchapter (q d stem ext : string) :
  q = "" \/ (exists q', q = q' +:+ "/") ->
  d <> "" ->
  Str.contains "/" d = false ->
  Str.contains "/" stem = false ->
  Str.contains "/" ext = false ->
  Str.contains "." ext = false ->
  posixpath.has_non_dot stem = true ->
  let name := stem +:+ String "." ext in
  (chapter_of ((q +:+ d) +:+ String "/" name) = d
   /\ subchapter_of ((q +:+ d) +:+ String "/" name) = stem)
  /\ (chapter_of name = "" /\ subchapter_of name = stem).
Proof.
  intros Hq Hne Hd Hs He Hdot Hnd name.
  assert (Hname : Str.contains "/" name = false) by now apply has_non_dot_no_sep.
  split; split.
  - unfold chapter_of. rewrite (split_dir_name q d name Hne Hd Hname). simpl fst.
    now apply split_tail.
  - unfold subchapter_of, name.
    rewrite (sep_split "/" (q +:+ d) (stem +:+ String "." ext)).
    rewrite (splitext_stem ((q +:+ d) +:+ "/") stem ext); try assumption.
    + simpl fst. unfold posixpath.basename.
      rewrite <- (sep_split "/" (q +:+ d) stem).
      rewrite (rfind_succ_last "/" (q +:+ d) stem Hs). apply drop_sep.
    + right. now exists (q +:+ d).
  - unfold chapter_of. now rewrite (split_name name Hname).
  - unfold subchapter_of, name.
    rewrite <- (append_nil (stem +:+ String "." ext)).
    rewrite (splitext_stem "" stem ext); try assumption; [|now left].
    simpl fst. rewrite append_nil. unfold posixpath.basename.
    rewrite (rfind_succ_none "/" stem Hs).
    unfold Str.drop. rewrite Nat.sub_0_r. apply substring_all.
Qed.

Lemma chapter_and_subchapter_witness :
  chapter_of "book/functions/recursion.intro.html" = "functions"
  /\ subchapter_of "book/functions/recursion.intro.html" = "recursion.intro"
  /\ chapter_of "index.html" = ""
  /\ subchapter_of "index.html" = "index".
Proof.
  destruct (chapter_and_subchapter "book/" "functions" "recursion.intro" "html")
    as [[H1 H2] _]; try reflexivity; try discriminate.
  { right. now exists "book". }
  destruct (chapter_and_subchapter "" "x" "index" "html")
    as [_ [H3 H4]]; try reflexivity; try discriminate.
  { now left. }
  repeat split; assumption.
Defined.

(** For a signed-in user the activity counts are fetched for that chapter
    and subchapter; for an anonymous one nothing is fetched. *)
Lemma page_activity_lookup (env : Services) (request : Request)
  (course_name pagepath : string) (row : CourseRow) :
  page_activity_info env request course_name pagepath row =
  match state_user request with
  | Some u =>
      fetch_page_activity_counts env (chapter_of pagepath) (subchapter_of pagepath)
        (base_course row) (username u) course_name
  | None => JObj []
  end.
Proof. reflexivity. Qed.

(** ** The accepted path, spelled out *)

Lemma endswith_char_single (a c : ascii) :
  Str.endswith (String a "") (String c "") = Ascii.eqb a c.
Proof.
  unfold Str.endswith. simpl. now destruct (Ascii.eqb a c).
Qed.

Lemma endswith_char_cons (a b c : ascii) (s : string) :
  Str.endswith (String a (String b s)) (String c "")
  = Str.endswith (String b s) (String c "").
Proof.
  unfold Str.endswith.
  change (String.length (String a (String b s))) with (S (S (String.length s))).
  change (String.length (String b s)) with (S (String.length s)).
  change (String.length (String c "")) with 1.
  replace (S (S (String.length s)) - 1) with (S (String.length s)) by lia.
  replace (S (String.length s) - 1) with (String.length s) by lia.
  reflexivity.
Qed.

Lemma endswith_no_sep (c : ascii) (x : string) :
  Str.contains (String c "") x = false -> Str.endswith x (String c "") = false.
Proof.
  induction x as [|a x IH]; intros H; [reflexivity|].
  rewrite contains_char_cons in H. apply orb_false_iff in H as [Ha Hx].
  destruct x as [|b x]; [now rewrite endswith_char_single|].
  rewrite endswith_char_cons. now apply IH.
Qed.

Lemma endswith_append (c : ascii) (x b : string) :
  b <> "" -> Str.endswith (x +:+ b) (String c "") = Str.endswith b (String c "").
Proof.
  intros Hb. induction x as [|a x IH]; [reflexivity|].
  rewrite append_cons.
  destruct (x +:+ b) as [|e r] eqn:Hx.
  - apply append_eq_nil in Hx as [_ Hx]. congruence.
  - now rewrite endswith_char_cons.
Qed.

Lemma URL_plain_no_trailing_sep (comps : list string) :
  comps <> [] ->
  Forall (fun c => plain_comp c = true) comps ->
  URL comps <> "" /\ Str.endswith (URL comps) "/" = false.
Proof.
  induction comps as [|c l IH]; intros Hne Hall; [congruence|].
  inversion Hall as [|? ? Hc Hl]; subst.
  apply plain_comp_spec in Hc as (Hc1 & _ & _ & Hc4).
  apply String.eqb_neq in Hc1.
  destruct l as [|c' l].
  - split; [exact Hc1|]. now apply (endswith_no_sep "/").
  - destruct (IH ltac:(discriminate) Hl) as [Hn He].
    unfold URL in *. rewrite join_cons by discriminate. split.
    + intros H. apply append_eq_nil in H as [H _]. congruence.
    + rewrite (endswith_append "/"); [|intros H; apply append_eq_nil in H as [H _];
                                         discriminate H].
      rewrite (endswith_append "/" "/"); [exact He|exact Hn].
Qed.

Lemma join_step_slash (path b : string) :
  path <> "" -> Str.endswith path "/" = false -> posixpath.isabs b = false ->
  posixpath.join_step path b = path +:+ "/" +:+ b.
Proof.
  intros Hne He Hb. unfold posixpath.join_step, posixpath.isabs in *.
  apply String.eqb_neq in Hne. unfold posixpath.sep in *. now rewrite Hb, Hne, He.
Qed.

Lemma URL_snoc (acc b : string) (l : list string) :
  URL ((acc +:+ "/" +:+ b) :: l) = URL (acc :: b :: l).
Proof.
  unfold URL. destruct l as [|c l]; [reflexivity|].
  rewrite !join_cons by discriminate. now rewrite !append_assoc.
Qed.

Lemma join_slash (l : list string) (acc : string) :
  acc <> "" -> Str.endswith acc "/" = false ->
  Forall (fun b => posixpath.isabs b = false /\ b <> ""
                   /\ Str.endswith b "/" = false) l ->
  posixpath.join acc l = URL (acc :: l).
Proof.
  unfold posixpath.join.
  revert acc; induction l as [|b l IH]; intros acc Hne He Hall; [reflexivity|].
  inversion Hall as [|? ? (Hb1 & Hb2 & Hb3) Hl]; subst.
  simpl fold_left. rewrite (join_step_slash acc b Hne He Hb1).
  rewrite IH; [apply URL_snoc| | |exact Hl].
  - intros H. apply append_eq_nil in H as [H _]. congruence.
  - rewrite (endswith_append "/"); [|intros H; apply append_eq_nil in H as [H _];
                                       discriminate H].
    now rewrite (endswith_append "/" "/").
Qed.

(** X3: For a base directory that is not empty and has no trailing slash, and
    segments none of which is empty, the path [safe_join] accepts is the
    directory and the normalised segments with one slash between each. *)
Theorem safe_join_slash_joined (directory : string) (pathnames : list string)
  (p : string) :
  directory <> "" ->
  Str.endswith directory "/" = false ->
  Forall (fun f => f <> "") pathnames ->
  safe_join posix directory pathnames = Some p ->
  p = URL (directory :: List.map normalized pathnames).
Proof.
  intros Hne He Hnames Hjoin.
  pose proof Hjoin as Heq. rewrite safe_join_eq in Heq.
  destruct (existsb _ pathnames); [discriminate|]. injection Heq as <-.
  apply join_slash; [exact Hne|exact He|].
  assert (Hall : forall f, In f pathnames ->
                   posixpath.isabs (normalized f) = false /\ normalized f <> ""
                   /\ Str.endswith (normalized f) "/" = false).
  { intros f Hin.
    pose proof (accepted_segment directory pathnames _ f Hjoin Hin) as Hacc.
    apply rejected_posix_false in Hacc as (Habs & _ & _).
    split; [exact Habs|].
    destruct (safe_join_plain_seg directory pathnames _ f Hjoin Hin)
      as [[Hf _] | [-> | (comps & Hc1 & Hc2 & ->)]].
    - rewrite Forall_forall in Hnames. now destruct (Hnames f (proj2 (list_elem_of_In _ _) Hin)).
    - split; [discriminate|reflexivity].
    - now apply URL_plain_no_trailing_sep. }
  clear -Hall. induction pathnames as [|f l IH]; simpl; constructor.
  - apply Hall. now left.
  - apply IH. intros g Hg. apply Hall. now right.
Qed.

Lemma safe_join_slash_joined_witness :
  URL ("/srv/books" :: List.map normalized ["overview"; "build//overview"; "a/../b.css"])
  = "/srv/books/overview/build/overview/b.css".
Proof.
  symmetry.
  apply (safe_join_slash_joined "/srv/books"
           ["overview"; "build//overview"; "a/../b.css"]);
    [discriminate|reflexivity| |reflexivity].
  repeat constructor; discriminate.
Defined.

(** ** Containment *)

Lemma split_app (c : ascii) (x y : string) :
  Str.split c (x +:+ String c y) = Str.split c x ++ Str.split c y.
Proof.
  induction x as [|a x IH].
  - rewrite append_nil, split_sep. reflexivity.
  - rewrite append_cons. simpl Str.split. destruct (Ascii.eqb a c).
    + now rewrite IH.
    + rewrite IH. destruct (Str.split c x) as [|h t] eqn:Hx;
        [now apply split_not_nil in Hx|]. reflexivity.
Qed.

Lemma split_trailing_sep (c : ascii) (x : string) :
  Str.split c (x +:+ String c "") = Str.split c x ++ [""].
Proof. apply split_app. Qed.

Lemma endswith_sep_inv (c : ascii) (s : string) :
  Str.endswith s (String c "") = true -> exists s', s = s' +:+ String c "".
Proof.
  induction s as [|a s IH]; intros H; [discriminate|].
  destruct s as [|b t].
  - rewrite endswith_char_single in H. apply Ascii.eqb_eq in H. subst a.
    now exists "".
  - rewrite endswith_char_cons in H. destruct (IH H) as [s' Hs'].
    exists (String a s'). now rewrite append_cons, <- Hs'.
Qed.

Lemma startswith_append_nonempty (x y : string) :
  x <> "" -> Str.startswith (x +:+ y) (String "/" "") = Str.startswith x (String "/" "").
Proof. intros Hx. destruct x as [|a x]; [congruence|]. reflexivity. Qed.

Lemma below_refl (base : string) : below base base.
Proof.
  exists "". split; [now rewrite append_empty_r|]. split; [reflexivity|].
  repeat constructor. discriminate.
Qed.

Lemma at_border_nonempty (base rest : string) :
  rest <> "" ->
  at_border base rest =
  if String.eqb base "" then negb (Str.startswith rest "/")
  else Str.endswith base "/" || Str.startswith rest "/".
Proof.
  intros H. apply String.eqb_neq in H. unfold at_border. now rewrite H.
Qed.

Lemma at_border_extend (base rest y : string) :
  rest <> "" -> at_border base rest = true -> at_border base (rest +:+ y) = true.
Proof.
  intros Hr Hb.
  assert (Hne : rest +:+ y <> "").
  { intros H. apply append_eq_nil in H as [H _]. congruence. }
  rewrite (at_border_nonempty base _ Hne).
  rewrite (at_border_nonempty base _ Hr) in Hb.
  now rewrite (startswith_append_nonempty rest y Hr).
Qed.

Lemma join_step_below (base acc b : string) :
  below base acc -> tame b -> below base (posixpath.join_step acc b).
Proof.
  intros (rest & -> & Hbord & Hcomps) [Habs Hb].
  unfold posixpath.join_step. unfold posixpath.isabs in Habs. rewrite Habs.
  destruct (String.eqb (base +:+ rest) "") eqn:Hempty.
  - (* nothing joined so far *)
    apply String.eqb_eq in Hempty. apply append_eq_nil in Hempty as [-> ->].
    simpl orb. cbv iota. rewrite !append_nil.
    exists b. split; [reflexivity|]. split; [|exact Hb].
    unfold at_border. cbn [String.eqb]. unfold posixpath.sep in Habs. rewrite Habs.
    apply orb_true_r.
  - simpl orb. destruct (Str.endswith (base +:+ rest) posixpath.sep) eqn:Hend.
    + (* the path so far ends with a slash *)
      destruct (String.eqb b "") eqn:Hbe.
      { apply String.eqb_eq in Hbe. subst b. rewrite append_empty_r.
        exists rest. auto. }
      apply String.eqb_neq in Hbe.
      exists (rest +:+ b). split; [now rewrite append_assoc|].
      destruct (String.eqb rest "") eqn:Hre.
      * apply String.eqb_eq in Hre. subst rest.
        rewrite append_empty_r in Hend, Hempty. rewrite append_nil.
        split; [|exact Hb].
        rewrite (at_border_nonempty base b Hbe), Hempty.
        unfold posixpath.sep in Hend. now rewrite Hend.
      * apply String.eqb_neq in Hre. split; [now apply at_border_extend|].
        unfold posixpath.sep in Hend.
        rewrite (endswith_append "/" base rest Hre) in Hend.
        destruct (endswith_sep_inv "/" rest Hend) as [r' ->].
        rewrite append_assoc. change (String "/" "" +:+ b) with (String "/" b).
        rewrite split_app. rewrite split_trailing_sep in Hcomps.
        apply Forall_app in Hcomps as [Hr' _].
        apply Forall_app. now split.
    + (* a slash is put between *)
      exists (rest +:+ posixpath.sep +:+ b).
      split; [now rewrite !append_assoc|]. split.
      * destruct (String.eqb rest "") eqn:Hre.
        -- apply String.eqb_eq in Hre. subst rest.
           rewrite append_empty_r in Hempty. rewrite append_nil.
           unfold at_border. rewrite Hempty.
           change (posixpath.sep +:+ b) with (String "/" b). simpl.
           now rewrite !orb_true_r.
        -- apply String.eqb_neq in Hre. now apply at_border_extend.
      * change (rest +:+ posixpath.sep +:+ b) with (rest +:+ String "/" b).
        rewrite split_app. apply Forall_app. now split.
Qed.

Lemma join_below (base : string) (segs : list string) (acc : string) :
  below base acc -> Forall tame segs -> below base (posixpath.join acc segs).
Proof.
  unfold posixpath.join.
  revert acc; induction segs as [|b segs IH]; intros acc Hacc Hall; [exact Hacc|].
  inversion Hall as [|? ? Hb Hsegs]; subst.
  simpl. apply IH; [|exact Hsegs]. now apply join_step_below.
Qed.

Lemma join_app (a : string) (l1 l2 : list string) :
  posixpath.join a (l1 ++ l2) = posixpath.join (posixpath.join a l1) l2.
Proof. unfold posixpath.join. apply fold_left_app. Qed.

(** An accepted segment is relative and has no [..] among its components. *)
Lemma accepted_tame (f : string) :
  rejected posix (normalized f) = false -> tame (normalized f).
Proof.
  intros Hacc.
  assert (Hjoin : safe_join posix "" [f] = Some (posixpath.join "" [normalized f])).
  { rewrite safe_join_eq. simpl existsb. now rewrite Hacc. }
  split; [exact (proj1 (rejected_posix_false _ Hacc))|].
  destruct (safe_join_plain_seg "" [f] _ f Hjoin (or_introl eq_refl))
    as [[_ ->] | [-> | (comps & Hne & Hplain & ->)]].
  - repeat constructor. discriminate.
  - repeat constructor. discriminate.
  - assert (Hsep : Forall (fun x => Str.contains "/" x = false) comps).
    { clear -Hplain. induction Hplain as [|c l Hc _ IH]; constructor; [|exact IH].
      now apply plain_comp_spec in Hc as (_ & _ & _ & Hc). }
    unfold URL. rewrite (split_join "/" comps Hne Hsep).
    clear -Hplain. induction Hplain as [|c l Hc _ IH]; constructor; [|exact IH].
    apply plain_comp_spec in Hc as (_ & _ & Hc & _). now apply String.eqb_neq.
Qed.

Lemma accepted_all_tame (pathnames : list string) :
  existsb (fun f => rejected posix (normalized f)) pathnames = false ->
  Forall tame (List.map normalized pathnames).
Proof.
  induction pathnames as [|f l IH]; intros H; simpl; constructor.
  - simpl in H. apply orb_false_iff in H as [Hf _]. now apply accepted_tame.
  - apply IH. simpl in H. now apply orb_false_iff in H as [_ H].
Qed.

(** The path [safe_join] returns for a longer sequence lies below the one
    it returns for a shorter one. *)
Lemma safe_join_app_below (directory : string) (l1 l2 : list string) (p : string) :
  safe_join posix directory (l1 ++ l2) = Some p ->
  exists q, safe_join posix directory l1 = Some q /\ below q p.
Proof.
  rewrite !safe_join_eq, List.existsb_app.
  destruct (existsb _ l1); [discriminate|].
  destruct (existsb _ l2) eqn:H2; [discriminate|].
  simpl. intros H. injection H as <-.
  eexists. split; [reflexivity|].
  rewrite List.map_app, join_app.
  apply (join_below _ (List.map normalized l2)); [apply below_refl|].
  now apply accepted_all_tame.
Qed.

Lemma below_stays_below (base p : string) :
  below base p -> Str.startswith p base = true /\ stays_below base p = true.
Proof.
  intros (rest & -> & Hbord & Hcomps).
  split; [apply startswith_app|].
  unfold stays_below. rewrite startswith_app, drop_append, Hbord. simpl.
  apply forallb_forall. intros c Hc.
  apply negb_true_iff, String.eqb_neq.
  rewrite List.Forall_forall in Hcomps. now apply Hcomps.
Qed.

(** ** The normal form of a path below another *)

Lemma step_other (s : nat) (l : list string) (c : string) :
  c <> ".." -> Str.contains "/" c = false ->
  posixpath.normpath_step s l c = l ++ List.filter plain_comp [c].
Proof.
  intros Hne Hsep. simpl List.filter.
  destruct (comp_cases c Hsep) as [-> | [-> | [-> | Hp]]].
  - now rewrite app_nil_r.
  - now rewrite app_nil_r.
  - congruence.
  - rewrite Hp. now apply step_plain.
Qed.

Lemma fold_other (s : nat) (comps acc : list string) :
  Forall (fun c => c <> "..") comps ->
  Forall (fun c => Str.contains "/" c = false) comps ->
  fold_left (posixpath.normpath_step s) comps acc = acc ++ List.filter plain_comp comps.
Proof.
  revert acc; induction comps as [|c comps IH]; intros acc Hne Hsep.
  - simpl. now rewrite app_nil_r.
  - inversion Hne as [|? ? Hc1 Hne']; inversion Hsep as [|? ? Hc2 Hsep']; subst.
    cbn [fold_left]. rewrite (step_other s acc c Hc1 Hc2), (IH _ Hne' Hsep').
    rewrite <- app_assoc. f_equal.
    change (c :: comps) with ([c] ++ comps). now rewrite List.filter_app.
Qed.

Lemma filter_plain (comps : list string) :
  Forall (fun c => plain_comp c = true) (List.filter plain_comp comps).
Proof.
  induction comps as [|c comps IH]; simpl; [constructor|].
  destruct (plain_comp c) eqn:Hc; [now constructor|exact IH].
Qed.

(** Only whether the path is absolute matters to the loop of [normpath]. *)
Lemma step_slashes (s s' : nat) (l : list string) (c : string) :
  Nat.eqb s 0 = Nat.eqb s' 0 ->
  posixpath.normpath_step s l c = posixpath.normpath_step s' l c.
Proof. intros H. unfold posixpath.normpath_step. now rewrite H. Qed.

Lemma fold_slashes (s s' : nat) (comps acc : list string) :
  Nat.eqb s 0 = Nat.eqb s' 0 ->
  fold_left (posixpath.normpath_step s) comps acc
  = fold_left (posixpath.normpath_step s') comps acc.
Proof.
  intros H. revert acc; induction comps as [|c comps IH]; intros acc; [reflexivity|].
  simpl. now rewrite (step_slashes s s' acc c H), IH.
Qed.

Lemma initial_slashes_zero (p : string) :
  Nat.eqb (posixpath.initial_slashes p) 0 = negb (posixpath.isabs p).
Proof.
  unfold posixpath.initial_slashes, posixpath.isabs.
  destruct (Str.startswith p posixpath.sep); [|reflexivity].
  now destruct (_ && _).
Qed.

Lemma isabs_append (base rest : string) :
  base <> "" -> posixpath.isabs (base +:+ rest) = posixpath.isabs base.
Proof. intros H. destruct base; [congruence|reflexivity]. Qed.

Lemma startswith_sep_inv (s : string) :
  Str.startswith s "/" = true -> exists r, s = String "/" r.
Proof.
  destruct s as [|a r]; [discriminate|]. simpl. rewrite andb_true_r.
  intros H. apply Ascii.eqb_eq in H. subst a. now exists r.
Qed.

(** Normalising a path below [base] gives the normal form of [base] and,
    after it, plain names only. *)
Lemma below_normal_form (base p : string) :
  below base p ->
  exists names,
    Forall (fun c => plain_comp c = true) names
    /\ normpath_comps p = normpath_comps base ++ names
    /\ posixpath.isabs p = posixpath.isabs base.
Proof.
  intros (rest & -> & Hbord & Hcomps).
  destruct (String.eqb rest "") eqn:Hre.
  { apply String.eqb_eq in Hre. subst rest. rewrite append_empty_r.
    exists []. split; [constructor|]. split; [now rewrite app_nil_r|reflexivity]. }
  apply String.eqb_neq in Hre.
  rewrite (at_border_nonempty base rest Hre) in Hbord.
  destruct (String.eqb base "") eqn:Hbe.
  - apply String.eqb_eq in Hbe. subst base. rewrite append_nil.
    apply negb_true_iff in Hbord.
    exists (List.filter plain_comp (Str.split "/" rest)).
    split; [apply filter_plain|]. split; [|exact Hbord].
    unfold normpath_comps at 1.
    now rewrite (fold_other _ _ [] Hcomps (split_comps_no_sep "/" rest)).
  - apply String.eqb_neq in Hbe.
    assert (Hs : Nat.eqb (posixpath.initial_slashes (base +:+ rest)) 0
                 = Nat.eqb (posixpath.initial_slashes base) 0).
    { now rewrite !initial_slashes_zero, (isabs_append base rest Hbe). }
    apply orb_true_iff in Hbord as [Hend | Hstart].
    + destruct (endswith_sep_inv "/" base Hend) as [b' ->].
      exists (List.filter plain_comp (Str.split "/" rest)).
      split; [apply filter_plain|]. split; [|now apply isabs_append].
      unfold normpath_comps. rewrite (fold_slashes _ _ _ _ Hs).
      set (s := posixpath.initial_slashes (b' +:+ "/")).
      rewrite append_assoc. change ("/" +:+ rest) with (String "/" rest).
      rewrite split_app, split_trailing_sep, !fold_left_app.
      cbn [fold_left]. rewrite (step_skip s _ "" (or_introl eq_refl)).
      apply fold_other; [exact Hcomps|apply (split_comps_no_sep "/")].
    + destruct (startswith_sep_inv rest Hstart) as [r' ->].
      rewrite split_sep in Hcomps. inversion Hcomps as [|? ? _ Hr']; subst.
      exists (List.filter plain_comp (Str.split "/" r')).
      split; [apply filter_plain|]. split; [|now apply isabs_append].
      unfold normpath_comps. rewrite (fold_slashes _ _ _ _ Hs).
      rewrite split_app, fold_left_app.
      apply fold_other; [exact Hr'|apply (split_comps_no_sep "/")].
Qed.

(** The predicate has teeth: a path that climbs out is not below. *)
Lemma climbing_path_not_below :
  stays_below "/srv/books" "/srv/books/../../etc/passwd" = false
  /\ stays_below "/srv/books" "/srv/booksellers/a" = false
  /\ stays_below "/srv/books" "/srv/books/overview/a.png" = true.
Proof. repeat split. Qed.

(** C1: every path [safe_join] returns starts with the base directory and
    stays lexically inside it: after the directory it continues, from a
    component border on, with components none of which is [..], and its
    normal form is the normal form of the directory followed by plain
    names. *)
Theorem safe_join_contained (directory : string) (pathnames : list string) (p : string) :
  safe_join posix directory pathnames = Some p ->
  Str.startswith p directory = true
  /\ stays_below directory p = true
  /\ exists names,
       Forall (fun c => plain_comp c = true) names
       /\ normpath_comps p = normpath_comps directory ++ names
       /\ posixpath.isabs p = posixpath.isabs directory.
Proof.
  intros H.
  assert (Hbelow : below directory p).
  { destruct (safe_join_app_below directory [] pathnames p H) as (q & Hq & Hb).
    rewrite safe_join_eq in Hq. simpl in Hq. injection Hq as <-. exact Hb. }
  destruct (below_stays_below directory p Hbelow) as [Hpre Hstay].
  split; [exact Hpre|]. split; [exact Hstay|].
  now apply below_normal_form.
Qed.

Lemma safe_join_contained_witness :
  safe_join posix "/srv/books" ["overview"; "build"; "overview"; "_images"; "a/../logo.png"]
    = Some "/srv/books/overview/build/overview/_images/logo.png"
  /\ stays_below "/srv/books" "/srv/books/overview/build/overview/_images/logo.png" = true
  /\ normpath_comps "/srv/books/overview/build/overview/_images/logo.png"
     = normpath_comps "/srv/books" ++ ["overview"; "build"; "overview"; "_images"; "logo.png"].
Proof.
  split; [reflexivity|].
  destruct (safe_join_contained "/srv/books"
              ["overview"; "build"; "overview"; "_images"; "a/../logo.png"]
              "/srv/books/overview/build/overview/_images/logo.png" eq_refl)
    as (_ & Hstay & _).
  split; [exact Hstay|reflexivity].
Defined.

(** X9: A file the static routes hand back exists, and lies lexically inside
    the directory of its kind in the build tree of the course's base
    course: after that directory its path has no [..] component, and its
    normal form is the directory's followed by plain names; the stores
    are as they were. *)
Theorem static_asset_served (env : Services) (course kind filepath : string)
  (resp : Response) (w w' : World) :
  return_static_asset env course kind filepath w = (Ok resp, w') ->
  w' = w
  /\ exists row p q,
       resp = FileResponse p
       /\ fetch_course env course = Some row
       /\ path_exists env p = true
       /\ safe_join posix (book_path (settings env))
            [base_course row; "build"; base_course row; kind] = Some q
       /\ Str.startswith p q = true
       /\ stays_below q p = true
       /\ exists names,
            Forall (fun c => plain_comp c = true) names
            /\ normpath_comps p = normpath_comps q ++ names.
Proof.
  unfold return_static_asset.
  destruct (fetch_course env course) as [row|] eqn:Hc; [|discriminate].
  destruct (safe_join posix (book_path (settings env))
              [base_course row; "build"; base_course row; kind; filepath])
    as [p|] eqn:Hj; [|discriminate].
  unfold bind, os_path_exists, ret, raise.
  destruct (path_exists env p) eqn:Hex; [|discriminate].
  intros H. injection H as <- <-. split; [reflexivity|].
  destruct (safe_join_app_below (book_path (settings env))
              [base_course row; "build"; base_course row; kind] [filepath] p Hj)
    as (q & Hq & Hbelow).
  destruct (below_stays_below q p Hbelow) as [Hpre Hstay].
  destruct (below_normal_form q p Hbelow) as (names & Hplain & Hnorm & _).
  exists row, p, q. repeat (split; [assumption || reflexivity|]).
  now exists names.
Qed.

Lemma static_asset_served_witness :
  exists q,
    safe_join posix "/srv/books" ["overview"; "build"; "overview"; "_images"] = Some q
    /\ stays_below q "/srv/books/overview/build/overview/_images/logo.png" = true.
Proof.
  destruct (static_asset_served Demo.env "overview" "_images" "logo.png"
              (FileResponse "/srv/books/overview/build/overview/_images/logo.png")
              Demo.w0 Demo.w0 eq_refl)
    as (_ & row & p & q & Hresp & Hrow & _ & Hq & _ & Hstay & _).
  injection Hresp as <-.
  assert (Hr : row = Demo.overview)
    by (change (Some Demo.overview = Some row) in Hrow; congruence).
  subst row. exists q. split; [exact Hq|exact Hstay].
Defined.
